(** * Student Assistant: the request pipeline of [app.py]

    A shallow embedding of [query_huggingface] and of the "Get AI Assistance"
    button handler, with the Python built-ins they rely on ([str.strip],
    [str.split], the [in] operator, subscripting, [try]/[except]) and the two
    library layers they sit on ([requests] and Streamlit's [st.cache_data]). *)

From Stdlib Require Import ZArith NArith List Ascii String Floats DecimalString.
From stdpp Require Import base option list gmap.

Set Warnings "-register-all,-inexact-float".
Local Open Scope Z_scope.

(** ** Python strings

    A Python [str] is a sequence of Unicode code points.  Rocq's [string] is a
    sequence of bytes, so a [str] is modelled as a list of code points and the
    ASCII literals of the source are injected with [lit]. *)

Abbreviation pystr := (list N).

Fixpoint lit (s : string) : pystr :=
  match s with
  | EmptyString => []
  | String a s' => N_of_ascii a :: lit s'
  end.

Arguments lit : simpl never.

Definition NL : pystr := [10%N].

(** [str.isspace] on one code point: the table of CPython's
    [_PyUnicode_IsWhitespace]. *)
Definition isspace (c : N) : bool :=
  ((9 <=? c) && (c <=? 13) || (28 <=? c) && (c <=? 32) || (c =? 133)
   || (c =? 160) || (c =? 5760) || (8192 <=? c) && (c <=? 8202)
   || (c =? 8232) || (c =? 8233) || (c =? 8239) || (c =? 8287)
   || (c =? 12288))%N.

Fixpoint lstrip (s : pystr) : pystr :=
  match s with
  | [] => []
  | c :: s' => if isspace c then lstrip s' else s
  end.

Definition rstrip (s : pystr) : pystr := rev (lstrip (rev s)).

(** [s.strip()] with no argument. *)
Definition strip (s : pystr) : pystr := rstrip (lstrip s).

Definition str_eqb (a b : pystr) : bool := bool_decide (a = b).

Fixpoint startswith (s pre : pystr) {struct pre} : bool :=
  match pre, s with
  | [], _ => true
  | _ :: _, [] => false
  | p :: pre', c :: s' => (p =? c)%N && startswith s' pre'
  end.

(** [sub in s] on two strings. *)
Fixpoint str_contains (sub s : pystr) : bool :=
  startswith s sub ||
  match s with
  | [] => false
  | _ :: s' => str_contains sub s'
  end.

(** The left-to-right scan of [s.split(sep)] for a non-empty [sep]: [skip]
    counts the characters of a matched separator still to be passed over,
    [cur] is the piece being collected, last character first. *)
Fixpoint split_scan (sep s : pystr) (skip : nat) (cur : pystr) : list pystr :=
  match s with
  | [] => [rev cur]
  | c :: s' =>
      match skip with
      | S k => split_scan sep s' k cur
      | O =>
          if startswith s sep
          then rev cur :: split_scan sep s' (length sep - 1) []
          else split_scan sep s' O (c :: cur)
      end
  end.

Fixpoint join (sep : pystr) (pieces : list pystr) : pystr :=
  match pieces with
  | [] => []
  | [p] => p
  | p :: ps => p ++ sep ++ join sep ps
  end.

(** Decimal rendering of an [int], as [str(n)] and [f"{n}"] give it. *)
Definition str_int (n : Z) : pystr :=
  lit (NilEmpty.string_of_int (Z.to_int n)).

(** ** Decoded JSON values

    What [response.json()] hands back: the Python values a JSON document
    decodes to.  A decoded object is a [dict] with string keys; the finite
    map keeps its bindings and forgets the order in which the document lists
    them, which only [str()] of the whole value could show. *)

Inductive value : Type :=
| VNone
| VBool (b : bool)
| VInt (n : Z)
| VFloat (x : float)
| VStr (s : pystr)
| VList (items : list value)
| VDict (fields : gmap pystr value).

Definition type_name (v : value) : pystr :=
  match v with
  | VNone => lit "NoneType"
  | VBool _ => lit "bool"
  | VInt _ => lit "int"
  | VFloat _ => lit "float"
  | VStr _ => lit "str"
  | VList _ => lit "list"
  | VDict _ => lit "dict"
  end.

(** ** The HTTP layer: [requests] *)

(** What decoding a body as JSON gives: a value, or the text of the decoding
    error. *)
Inductive decoded : Type :=
| Decoded (v : value)
| Undecodable (detail : pystr).

(** A [requests.Response], as far as the program looks at it: the status
    code, the body as text, and what decoding the body as JSON gives. *)
Record Response : Type := mkResponse {
  status_code : Z;
  text : pystr;
  body_json : decoded
}.

(** ** Exceptions

    The exceptions of class [Exception] that the body of [query_huggingface]
    can meet, each with the text [str(e)] renders.  [OtherException] stands
    for every class outside the two the program names ([Timeout],
    [TooManyRedirects], [OSError], ...).  An [HTTPError] comes from
    [raise_for_status] and carries the response.  The texts of the
    interpreter's own errors are those of CPython 3.12; the properties below
    hold whatever these texts are. *)
Inductive exn : Type :=
| HTTPError (response : Response)
| ConnectionError (detail : pystr)
| JSONDecodeError (detail : pystr)
| TypeError (detail : pystr)
| AttributeError (detail : pystr)
| KeyError (detail : pystr)
| IndexError (detail : pystr)
| ValueError (detail : pystr)
| OtherException (detail : pystr).

Inductive outcome (A : Type) : Type :=
| Return (a : A)
| Raise (e : exn).
Arguments Return {A} a.
Arguments Raise {A} e.

Definition bind {A B} (m : outcome A) (k : A -> outcome B) : outcome B :=
  match m with
  | Return a => k a
  | Raise e => Raise e
  end.

#[global] Instance outcome_ret : MRet outcome := @Return.
#[global] Instance outcome_bind : MBind outcome := fun A B k m => bind m k.

(** ** Python operations on decoded values *)

Definition isinstance_list (v : value) : bool :=
  match v with
  | VList _ => true
  | _ => false
  end.

Definition len (v : value) : outcome Z :=
  match v with
  | VStr s => Return (Z.of_nat (length s))
  | VList items => Return (Z.of_nat (length items))
  | VDict fields => Return (Z.of_nat (size fields))
  | _ => Raise (TypeError (lit "object of type '" ++ type_name v ++ lit "' has no len()"))
  end.

Definition is_str (s : pystr) (v : value) : bool :=
  match v with
  | VStr t => str_eqb t s
  | _ => false
  end.

(** [needle in container], for a string [needle]: substring test on a [str],
    element test on a [list], key test on a [dict]; anything else raises. *)
Definition py_in (needle : pystr) (container : value) : outcome bool :=
  match container with
  | VStr s => Return (str_contains needle s)
  | VList items => Return (existsb (is_str needle) items)
  | VDict fields => Return (bool_decide (is_Some (fields !! needle)))
  | _ => Raise (TypeError (lit "argument of type '" ++ type_name container
                             ++ lit "' is not iterable"))
  end.

(** [container[0]]. *)
Definition getitem_0 (container : value) : outcome value :=
  match container with
  | VList items =>
      match items with
      | first :: _ => Return first
      | [] => Raise (IndexError (lit "list index out of range"))
      end
  | VStr s =>
      match s with
      | c :: _ => Return (VStr [c])
      | [] => Raise (IndexError (lit "string index out of range"))
      end
  | VDict fields => Raise (KeyError (lit "0"))
  | _ => Raise (TypeError (lit "'" ++ type_name container
                             ++ lit "' object is not subscriptable"))
  end.

(** [container[key]] for a string [key]. *)
Definition getitem_str (container : value) (key : pystr) : outcome value :=
  match container with
  | VDict fields =>
      match fields !! key with
      | Some v => Return v
      | None => Raise (KeyError (lit "'" ++ key ++ lit "'"))
      end
  | VStr _ => Raise (TypeError (lit "string indices must be integers, not 'str'"))
  | VList _ =>
      Raise (TypeError (lit "list indices must be integers or slices, not str"))
  | _ => Raise (TypeError (lit "'" ++ type_name container
                             ++ lit "' object is not subscriptable"))
  end.

Definition no_attribute (v : value) (name : pystr) : exn :=
  AttributeError (lit "'" ++ type_name v ++ lit "' object has no attribute '"
                    ++ name ++ lit "'").

(** [v.split(sep)]: only a [str] has the method, and an empty separator is
    refused. *)
Definition call_split (v : value) (sep : pystr) : outcome (list pystr) :=
  match v with
  | VStr s =>
      match sep with
      | [] => Raise (ValueError (lit "empty separator"))
      | _ :: _ => Return (split_scan sep s 0 [])
      end
  | _ => Raise (no_attribute v (lit "split"))
  end.

(** [v.strip()]. *)
Definition call_strip (v : value) : outcome pystr :=
  match v with
  | VStr s => Return (strip s)
  | _ => Raise (no_attribute v (lit "strip"))
  end.

(** [pieces[-1]]. *)
Definition getitem_last {A} (pieces : list A) : outcome A :=
  match last pieces with
  | Some x => Return x
  | None => Raise (IndexError (lit "list index out of range"))
  end.

(** [a and b], with [b] evaluated only when [a] holds. *)
Definition and_then (a : bool) (b : outcome bool) : outcome bool :=
  if a then b else Return false.

(** [s.replace(old, new)] for a non-empty [old]. *)
Definition replace (old new s : pystr) : pystr :=
  join new (split_scan old s 0 []).

(** [response.json()]. *)
Definition json (r : Response) : outcome value :=
  match body_json r with
  | Decoded v => Return v
  | Undecodable detail => Raise (JSONDecodeError detail)
  end.

(** [response.raise_for_status()]: an [HTTPError] carrying the response for
    the 4xx and 5xx codes, nothing otherwise. *)
Definition raise_for_status (r : Response) : outcome unit :=
  if (400 <=? status_code r) && (status_code r <? 600)
  then Raise (HTTPError r)
  else Return tt.

(** ** Request payload *)

Record Parameters : Type := mkParameters {
  max_new_tokens : Z;
  temperature : float;
  do_sample : bool;
  top_p : float
}.

Record Payload : Type := mkPayload {
  inputs : pystr;
  parameters : Parameters
}.

(** ** Constants of the program *)

Definition API_URL : pystr :=
  lit "https://api-inference.huggingface.co/models/mistralai/Mistral-7B-Instruct-v0.3".

Definition default_model_name : pystr := lit "Mistral-7B-Instruct-v0.2".

(** The code point U+274C that opens every error message. *)
Definition CROSS : pystr := [10060%N].

Definition MARKER : pystr := lit "[/INST]".
Definition FIELD : pystr := lit "generated_text".

Arguments API_URL : simpl never.
Arguments default_model_name : simpl never.
Arguments CROSS : simpl never.
Arguments MARKER : simpl never.
Arguments FIELD : simpl never.

(** ** Program state and effects

    The body of [query_huggingface] touches the outside world in one place,
    [requests.post]; the page is written to by the [st.*] calls; and
    [st.cache_data] keeps a store that lasts as long as the process.  All
    three are threaded through one state. *)

Inductive Element : Type :=
| Warning (body : pystr)
| Subheader (body : pystr)
| Write (body : pystr).

Record State : Type := mkState {
  cache : gmap (pystr * pystr) pystr;
  sent : list Payload;
  screen : list Element
}.

Definition initial : State := mkState ∅ [] [].

(** Computations that read and write the state and may raise. *)
Definition M (A : Type) : Type := State -> outcome A * State.

#[global] Instance M_ret : MRet M := fun A a st => (Return a, st).
#[global] Instance M_bind : MBind M := fun A B k m st =>
  match m st with
  | (Return a, st') => k a st'
  | (Raise e, st') => (Raise e, st')
  end.

Definition lift {A} (r : outcome A) : M A := fun st => (r, st).

(** [try: body except ...: handlers]: a handler that does not match leaves the
    exception to propagate. *)
Definition try_except {A} (body : M A) (handlers : exn -> option (M A)) : M A :=
  fun st =>
    match body st with
    | (Return a, st') => (Return a, st')
    | (Raise e, st') =>
        match handlers e with
        | Some h => h st'
        | None => (Raise e, st')
        end
    end.

Definition show (e : Element) : M unit :=
  fun st => (Return tt, mkState (cache st) (sent st) (screen st ++ [e])).

Definition st_warning (body : pystr) : M unit := show (Warning body).
Definition st_subheader (body : pystr) : M unit := show (Subheader body).
Definition st_write (body : pystr) : M unit := show (Write body).

(** The feature labels of the sidebar select box. *)
Definition SUMMARIZE : pystr := 128218%N :: lit " Summarize Text".
Definition EXPLAIN : pystr := 128161%N :: lit " Explain Concept".
Definition MODEL_QUESTIONS : pystr := 128221%N :: lit " Generate Model Questions".
Definition QUIZ_QUESTIONS : pystr := 129504%N :: lit " Generate Quiz Questions".

(** The triple-quoted template of the quiz branch, with the indentation of the
    source lines, which is part of the literal. *)
Definition quiz_template (user_input : pystr) : pystr :=
  lit "Create 3 multiple-choice questions (MCQs) with 4 options each, and 2 true/false questions on the topic '" ++ user_input
  ++ lit "'."
  ++ NL ++ lit "                For MCQs, clearly indicate the correct option (A, B, C, or D)."
  ++ NL ++ lit "                For True/False questions, clearly state 'True' or 'False'."
  ++ NL
  ++ NL ++ lit "                Format your output strictly as follows:"
  ++ NL ++ lit "                1. MCQ Question 1"
  ++ NL ++ lit "                   a) Option A"
  ++ NL ++ lit "                   b) Option B"
  ++ NL ++ lit "                   c) Option C"
  ++ NL ++ lit "                   d) Option D"
  ++ NL ++ lit "                   Correct Answer: [Option Letter, e.g., C]"
  ++ NL
  ++ NL ++ lit "                2. True/False Question 1"
  ++ NL ++ lit "                   Answer: [True/False]"
  ++ NL ++ lit "                ".

Section Program.

(** Python's [str()] of a decoded value, as the f-string of the format error
    renders it. *)
Variable str_value : value -> pystr.

(** The endpoint: what the [n]-th POST of the process (counting from 0)
    returns or raises for a payload. *)
Variable network : nat -> Payload -> outcome Response.

(** [requests.post(API_URL, headers=headers, json=payload)]. *)
Definition requests_post (payload : Payload) : M Response :=
  fun st =>
    (network (length (sent st)) payload,
     mkState (cache st) (sent st ++ [payload]) (screen st)).

(** Lines 51-62: from the decoded body to the answer. *)
Definition parse_result (result : value) : outcome pystr :=
  shape ← and_then (isinstance_list result)
            (n ← len result;
             and_then (0 <? n)
               (first ← getitem_0 result; py_in FIELD first));
  if shape : bool then
    first ← getitem_0 result;
    generated_text ← getitem_str first FIELD;
    echoed ← py_in MARKER generated_text;
    if echoed : bool then
      pieces ← call_split generated_text MARKER;
      piece ← getitem_last pieces;
      mret (strip piece)
    else
      call_strip generated_text
  else
    mret (CROSS ++ lit " Error: Unexpected API response format: "
            ++ str_value result).

(** The [except] clauses, in the order of the source. *)
Definition handlers (model_name : pystr) (e : exn) : option (M pystr) :=
  match e with
  | HTTPError response =>
      let status_code := status_code response in
      Some (mret (
        if status_code =? 404 then
          CROSS ++ lit " Error 404: Model '" ++ model_name
            ++ lit "' not found at " ++ API_URL
            ++ lit ". Please double-check the model ID and its availability on Hugging Face."
        else if status_code =? 401 then
          CROSS ++ lit " Error 401: Unauthorized. Please check your Hugging Face API token (HF_API_KEY)."
        else if status_code =? 503 then
          CROSS ++ lit " Error 503: Service Unavailable. The model '" ++ model_name
            ++ lit "' is currently loading or busy. Please try again in a moment."
        else
          CROSS ++ lit " HTTP Error " ++ str_int status_code ++ lit ": "
            ++ text response))
  | ConnectionError detail =>
      Some (mret (
        CROSS ++ lit " Connection Error: Could not connect to Hugging Face API. Please check your internet connection. Details: "
          ++ detail))
  | JSONDecodeError detail | TypeError detail | AttributeError detail
  | KeyError detail | IndexError detail | ValueError detail
  | OtherException detail =>
      Some (mret (
        CROSS ++ lit " An unexpected error occurred during API call: " ++ detail))
  end.

(** The function under the decorator. *)
Definition query_huggingface_body (prompt_instruction model_name : pystr)
  : M pystr :=
  try_except
    (let formatted_prompt := lit "<s>[INST] " ++ prompt_instruction ++ lit " [/INST]" in
     let payload :=
       {| inputs := formatted_prompt;
          parameters := {| max_new_tokens := 512;
                           temperature := 0.7%float;
                           do_sample := true;
                           top_p := 0.95%float |} |} in
     response ← requests_post payload;
     lift (raise_for_status response);;
     result ← lift (json response);
     lift (parse_result result))
    (handlers model_name).

(** [@st.cache_data]: the arguments are the key; a value is stored when the
    function returns, and a stored value is returned without running the
    function.  No entry expires or is evicted. *)
Definition cache_data (f : pystr -> pystr -> M pystr) (a b : pystr) : M pystr :=
  fun st =>
    match cache st !! (a, b) with
    | Some v => (Return v, st)
    | None =>
        match f a b st with
        | (Return v, st') =>
            (Return v, mkState (<[(a, b) := v]> (cache st')) (sent st') (screen st'))
        | (Raise e, st') => (Raise e, st')
        end
    end.

Definition query_huggingface : pystr -> pystr -> M pystr :=
  cache_data query_huggingface_body.

(** The prompt of each feature (lines 101-124). *)
Definition build_prompt (option user_input : pystr) : pystr :=
  if str_eqb option SUMMARIZE then
    lit "Summarize the following text concisely and accurately, highlighting the main points:"
      ++ NL ++ NL ++ user_input
  else if str_eqb option EXPLAIN then
    lit "Explain the following concept in simple, easy-to-understand terms for a student:"
      ++ NL ++ NL ++ lit "Concept: " ++ user_input
  else if str_eqb option MODEL_QUESTIONS then
    lit "Generate 5 detailed model exam/essay questions for the topic '" ++ user_input
      ++ lit "'. Ensure the questions are open-ended and require analytical answers. Format them as a numbered list."
  else if str_eqb option QUIZ_QUESTIONS then
    quiz_template user_input
  else [].

(** The label without its pictogram, as the chain of [replace] calls leaves
    it. *)
Definition feature_name (option : pystr) : pystr :=
  replace (129504%N :: lit " ") []
    (replace (128221%N :: lit " ") []
       (replace (128161%N :: lit " ") []
          (replace (128218%N :: lit " ") [] option))).

(** The handler of the "Get AI Assistance" button (lines 95-128).  The
    spinner, which only dresses the page while the call runs, is left out. *)
Definition on_click (option user_input : pystr) : M unit :=
  if str_eqb (strip user_input) [] then
    st_warning (9888%N :: lit " Please enter some text or a topic.")
  else
    let prompt := build_prompt option user_input in
    result ← query_huggingface prompt default_model_name;
    st_subheader (129534%N :: lit " Result: " ++ feature_name option);;
    st_write result.

End Program.

(** * Vocabulary of the specification *)

(** A string made of whitespace only (the empty string included). *)
Definition blank (s : pystr) : Prop := Forall (fun c => isspace c = true) s.

(** [t] is [s] without its leading and trailing whitespace. *)
Definition trimmed_of (s t : pystr) : Prop :=
  (exists l r, s = l ++ t ++ r /\ blank l /\ blank r)
  /\ (forall c t', t = c :: t' -> isspace c = false)
  /\ (forall c t', t = t' ++ [c] -> isspace c = false).

(** [sub] occurs in [s]. *)
Definition occurs (sub s : pystr) : Prop := exists pre suf, s = pre ++ sub ++ suf.

(** [pre ++ sub ++ suf] cuts [s] at the last place where [sub] occurs. *)
Definition last_occurrence (sub s pre suf : pystr) : Prop :=
  s = pre ++ sub ++ suf
  /\ forall pre' suf', s = pre' ++ sub ++ suf' -> (length pre' <= length pre)%nat.

(** The shape the parser looks for: a list whose first element is a record
    with a textual [generated_text]. *)
Definition answers (v : value) (generated_text : pystr) : Prop :=
  exists fields rest,
    v = VList (VDict fields :: rest) /\ fields !! FIELD = Some (VStr generated_text).

(** The prompt between the chat markers of the model. *)
Definition wrap (prompt : pystr) : pystr :=
  lit "<s>[INST] " ++ prompt ++ lit " [/INST]".

(** The generation parameters of the specification. *)
Definition GenerationParameters : Parameters :=
  {| max_new_tokens := 512; temperature := 0.7%float;
     do_sample := true; top_p := 0.95%float |}.

(** The request body of the specification for a prompt. *)
Definition request_payload (prompt : pystr) : Payload :=
  {| inputs := wrap prompt; parameters := GenerationParameters |}.

(** The state once a payload has gone out. *)
Definition posted (st : State) (payload : Payload) : State :=
  mkState (cache st) (sent st ++ [payload]) (screen st).

(** A message of the error family: it opens with the cross mark. *)
Definition flagged (s : pystr) : Prop := exists t, s = CROSS ++ t.

(** The message of line 62. *)
Definition format_error (str_value : value -> pystr) (v : value) : pystr :=
  CROSS ++ lit " Error: Unexpected API response format: " ++ str_value v.

(** The message of line 77. *)
Definition unexpected_error (detail : pystr) : pystr :=
  CROSS ++ lit " An unexpected error occurred during API call: " ++ detail.

(** What the [try] block makes of the outcome of the POST. *)
Definition after_post (str_value : value -> pystr) (o : outcome Response)
  : outcome pystr :=
  response ← o;
  raise_for_status response;;
  result ← json response;
  parse_result str_value result.

(** The answer the specification reads off a generated text: what follows the
    last closing marker, trimmed, or the whole text trimmed when there is no
    marker. *)
Definition extracted (generated_text answer : pystr) : Prop :=
  (occurs MARKER generated_text ->
     exists pre suf,
       last_occurrence MARKER generated_text pre suf
       /\ answer = strip suf /\ trimmed_of suf answer)
  /\ (~ occurs MARKER generated_text ->
        answer = strip generated_text /\ trimmed_of generated_text answer).

(** The POST that [st] is about to make for [prompt] is answered with a 2xx
    response whose body decodes to [v]. *)
Definition delivers (network : nat -> Payload -> outcome Response)
    (st : State) (prompt : pystr) (v : value) : Prop :=
  exists r,
    network (length (sent st)) (request_payload prompt) = Return r
    /\ 200 <= status_code r < 300
    /\ body_json r = Decoded v.

(** Sample data: the echoed instruction of the specification's example, a
    body carrying it, an endpoint that always answers 200 with a given body,
    and a stand-in for [str()]. *)
Definition sample_text : pystr := lit "<s>[INST] X [/INST] answer".

Definition sample_body : value := VList [VDict {[ FIELD := VStr sample_text ]}].

Definition sample_network (v : value) : nat -> Payload -> outcome Response :=
  fun _ _ => Return (mkResponse 200 [] (Decoded v)).

Definition no_str : value -> pystr := fun _ => [].

(** The error descriptors of the specification. *)
Inductive ErrorDescriptor : Type :=
| NotFound
| Unauthorized
| ServiceBusy
| OtherHttp (status : Z) (body : pystr)
| ConnectionFailure (detail : pystr)
| Unknown (detail : pystr).

(** The specification's table from an HTTP status to a descriptor. *)
Definition classify_status (status : Z) (body : pystr) : ErrorDescriptor :=
  match status with
  | 404 => NotFound
  | 401 => Unauthorized
  | 503 => ServiceBusy
  | _ => OtherHttp status body
  end.

(** The specification's table from an exceptional condition to a descriptor. *)
Definition classify (e : exn) : ErrorDescriptor :=
  match e with
  | HTTPError r => classify_status (status_code r) (text r)
  | ConnectionError detail => ConnectionFailure detail
  | JSONDecodeError detail | TypeError detail | AttributeError detail
  | KeyError detail | IndexError detail | ValueError detail
  | OtherException detail => Unknown detail
  end.

(** The message of each descriptor. *)
Definition render (model_name : pystr) (d : ErrorDescriptor) : pystr :=
  match d with
  | NotFound =>
      CROSS ++ lit " Error 404: Model '" ++ model_name ++ lit "' not found at "
        ++ API_URL
        ++ lit ". Please double-check the model ID and its availability on Hugging Face."
  | Unauthorized =>
      CROSS ++ lit " Error 401: Unauthorized. Please check your Hugging Face API token (HF_API_KEY)."
  | ServiceBusy =>
      CROSS ++ lit " Error 503: Service Unavailable. The model '" ++ model_name
        ++ lit "' is currently loading or busy. Please try again in a moment."
  | OtherHttp status body =>
      CROSS ++ lit " HTTP Error " ++ str_int status ++ lit ": " ++ body
  | ConnectionFailure detail =>
      CROSS ++ lit " Connection Error: Could not connect to Hugging Face API. Please check your internet connection. Details: "
        ++ detail
  | Unknown detail => unexpected_error detail
  end.

(** An HTTP error status: 4xx or 5xx. *)
Definition is_http_error (status : Z) : bool := (400 <=? status) && (status <? 600).

(** The reply the specification expects for an outcome of the POST: the
    parser's on a response without an error status, the rendered descriptor
    otherwise. *)
Definition expected_reply (str_value : value -> pystr) (model_name : pystr)
    (o : outcome Response) : pystr :=
  match o with
  | Return r =>
      if is_http_error (status_code r)
      then render model_name (classify_status (status_code r) (text r))
      else
        match result ← json r; parse_result str_value result with
        | Return answer => answer
        | Raise e => render model_name (classify e)
        end
  | Raise e => render model_name (classify e)
  end.

(** An endpoint that always answers 404. *)
Definition missing_model : nat -> Payload -> outcome Response :=
  fun _ _ => Return (mkResponse 404 (lit "Not Found") (Undecodable [])).

(** The shape as the specification words it: a non-empty list whose leading
    record exposes a ["generated_text"] field. *)
Definition exposes_field (v : value) : Prop :=
  exists fields rest,
    v = VList (VDict fields :: rest) /\ is_Some (fields !! FIELD).

(** The body [["generated_text"]], a list holding one string. *)
Definition string_in_list : value := VList [VStr FIELD].

(** A generated text that stops at the marker, blanks aside. *)
Definition echo_only : pystr := lit "<s>[INST] X [/INST]  ".

Definition echo_only_body : value := VList [VDict {[ FIELD := VStr echo_only ]}].

(** The text of the warning of line 97. *)
Definition WARNING_TEXT : pystr := 9888%N :: lit " Please enter some text or a topic.".

(** The state after the warning has been shown: nothing but the page
    changes. *)
Definition warned (st : State) : State :=
  mkState (cache st) (sent st) (screen st ++ [Warning WARNING_TEXT]).

(** The life of the process: one click after another, each a feature label
    and an input text, from the state the process starts in. *)
Fixpoint run (str_value : value -> pystr)
    (network : nat -> Payload -> outcome Response)
    (clicks : list (pystr * pystr)) (st : State) : State :=
  match clicks with
  | [] => st
  | (option, user_input) :: later =>
      run str_value network later
        (snd (on_click str_value network option user_input st))
  end.

(** How many outbound requests carried [prompt]. *)
Definition calls_for (prompt : pystr) (st : State) : nat :=
  length (filter (fun q => inputs q = wrap prompt) (sent st)).

(** Every request on the log was made for a prompt that is now in the cache,
    and no two requests carry the same text. *)
Definition memoised (st : State) : Prop :=
  NoDup (inputs <$> sent st)
  /\ forall q, q ∈ sent st ->
       exists prompt,
         q = request_payload prompt
         /\ is_Some (cache st !! (prompt, default_model_name)).

(** [s.split("\n")]. *)
Definition lines (s : pystr) : list pystr := split_scan NL s 0 [].

(** The line, indentation aside, starts with [tag]. *)
Definition opens_with (tag line : pystr) : bool := startswith (lstrip line) tag.

(** How many lines of [s] start with [tag]. *)
Definition count_lines (tag s : pystr) : nat :=
  length (List.filter (opens_with tag) (lines s)).

(** The layout an instruction shows: [mcq] multiple-choice blocks, each with
    the options a) to d) and a "Correct Answer:" line, and [tf] true/false
    blocks, each with an "Answer:" line. *)
Definition shows_blocks (mcq tf : nat) (instruction : pystr) : Prop :=
  count_lines (lit "a)") instruction = mcq
  /\ count_lines (lit "b)") instruction = mcq
  /\ count_lines (lit "c)") instruction = mcq
  /\ count_lines (lit "d)") instruction = mcq
  /\ count_lines (lit "Correct Answer:") instruction = mcq
  /\ count_lines (lit "Answer:") instruction = tf.

(** The sentence that opens the quiz instruction. *)
Definition quiz_request (user_input : pystr) : pystr :=
  lit "Create 3 multiple-choice questions (MCQs) with 4 options each, and 2 true/false questions on the topic '"
    ++ user_input ++ lit "'.".

(** The options of the sidebar select box (lines 85-90). *)
Definition features : list pystr :=
  [SUMMARIZE; EXPLAIN; MODEL_QUESTIONS; QUIZ_QUESTIONS].

(** The code points of the four pictograms that [feature_name] removes. *)
Definition pictograms : list N := [128218; 128161; 128221; 129504]%N.

(** A decoded body on which the shape test of line 52 evaluates to [False]. *)
Inductive unexpected_format : value -> Prop :=
| format_not_a_list (v : value) :
    isinstance_list v = false -> unexpected_format v
| format_empty_list :
    unexpected_format (VList [])
| format_record_without_field (fields : gmap pystr value) (rest : list value) :
    fields !! FIELD = None -> unexpected_format (VList (VDict fields :: rest))
| format_string_without_name (s : pystr) (rest : list value) :
    ~ occurs FIELD s -> unexpected_format (VList (VStr s :: rest))
| format_list_without_name (inner rest : list value) :
    VStr FIELD ∉ inner -> unexpected_format (VList (VList inner :: rest)).

(** The clicks of a run that carry a non-blank input. *)
Definition effective (clicks : list (pystr * pystr)) : list (pystr * pystr) :=
  List.filter (fun click => negb (str_eqb (strip (snd click)) [])) clicks.

(** A prompt that itself holds a marker, and the body that echoes it. *)
Definition marked_prompt : pystr := lit "what does [/INST] mean?".

Definition marked_echo : value :=
  VList [VDict {[ FIELD := VStr (wrap marked_prompt ++ lit " A tag. ") ]}].

(** An endpoint that answers with a redirect status and the sample body. *)
Definition redirecting : nat -> Payload -> outcome Response :=
  fun _ _ => Return (mkResponse 302 [] (Decoded sample_body)).

(** The body [[5]], a list holding one number. *)
Definition number_in_list : value := VList [VInt 5].

(** A body whose generated text, after the marker, is itself an error-like
    line. *)
Definition crossed_body : value :=
  VList [VDict {[ FIELD := VStr (wrap (lit "X") ++ CROSS ++ lit " no") ]}].

(** The header over a reply (line 127). *)
Definition result_header (option : pystr) : pystr :=
  129534%N :: lit " Result: " ++ feature_name option.

(** The state after a reply has been written under its header. *)
Definition answered (st : State) (option reply : pystr) : State :=
  mkState (cache st) (sent st)
    (screen st ++ [Subheader (result_header option); Write reply]).

(** An endpoint that cannot be reached. *)
Definition unreachable : nat -> Payload -> outcome Response :=
  fun _ _ => Raise (ConnectionError (lit "no route to host")).

(** The body [[{"generated_text": null}]]: the field is there and holds no
    text. *)
Definition null_field : value := VList [VDict {[ FIELD := VNone ]}].

(** An endpoint that always answers 401. *)
Definition unauthorized : nat -> Payload -> outcome Response :=
  fun _ _ => Return (mkResponse 401 (lit "Unauthorized") (Undecodable [])).

(** A well-shaped body whose generated text, after the echoed request, is the
    text of the 401 message. *)
Definition mimic_body : value :=
  VList [VDict {[ FIELD := VStr (wrap (lit "X") ++ lit " "
                                   ++ render default_model_name Unauthorized) ]}].

(** * Properties *)

(** ** Python strings: examples *)

Example str_int_404 : str_int 404 = lit "404".
Proof. reflexivity. Qed.

Example str_int_neg : str_int (-7) = lit "-7".
Proof. reflexivity. Qed.

Example strip_example :
  strip (lit "  a b " ++ NL) = lit "a b".
Proof. reflexivity. Qed.

Example split_example :
  split_scan (lit "[/INST]") (lit "<s>[INST] X [/INST] answer") 0 []
  = [lit "<s>[INST] X "; lit " answer"].
Proof. reflexivity. Qed.

Example split_example_end :
  split_scan (lit "ab") (lit "xabab") 0 [] = [lit "x"; []; []].
Proof. reflexivity. Qed.

(** ** Strings: trimming *)

Lemma blank_rev (s : pystr) : blank s -> blank (rev s).
Proof.
  unfold blank. rewrite !Forall_forall. intros H c Hc.
  apply H. rewrite list_elem_of_In in *. now apply in_rev.
Qed.

Lemma lstrip_blank (s : pystr) : blank s -> lstrip s = [].
Proof.
  induction 1 as [|c s Hc _ IH]; simpl; [reflexivity|].
  now rewrite Hc.
Qed.

Lemma lstrip_head (s : pystr) c t : lstrip s = c :: t -> isspace c = false.
Proof.
  induction s as [|d s IH]; simpl; [discriminate|].
  destruct (isspace d) eqn:Hd; [exact IH|].
  intros [= -> _]. exact Hd.
Qed.

Lemma lstrip_decomp (s : pystr) : exists ws, s = ws ++ lstrip s /\ blank ws.
Proof.
  induction s as [|d s [ws [Hs Hws]]]; simpl.
  - exists []. split; [reflexivity|constructor].
  - destruct (isspace d) eqn:Hd.
    + exists (d :: ws). split; [simpl; congruence|constructor; assumption].
    + exists []. split; [reflexivity|constructor].
Qed.

Lemma lstrip_nil_blank (s : pystr) : lstrip s = [] -> blank s.
Proof.
  intros H. destruct (lstrip_decomp s) as [ws [Hs Hws]].
  rewrite H, app_nil_r in Hs. now subst.
Qed.

Lemma strip_blank (s : pystr) : blank s -> strip s = [].
Proof. intros H. unfold strip, rstrip. now rewrite (lstrip_blank s H). Qed.

Lemma strip_nil_blank (s : pystr) : strip s = [] -> blank s.
Proof.
  unfold strip, rstrip. intros H.
  assert (Hr : lstrip (rev (lstrip s)) = []).
  { rewrite <- (rev_involutive (lstrip (rev (lstrip s)))), H. reflexivity. }
  apply lstrip_nil_blank, blank_rev in Hr. rewrite rev_involutive in Hr.
  apply lstrip_nil_blank.
  destruct (lstrip s) as [|c t] eqn:E; [reflexivity|].
  apply lstrip_head in E. inversion Hr; congruence.
Qed.

Lemma strip_trimmed (s : pystr) : trimmed_of s (strip s).
Proof.
  destruct (lstrip_decomp s) as [l [Hs Hl]].
  destruct (lstrip_decomp (rev (lstrip s))) as [w [Hu Hw]].
  assert (Hmid : lstrip s = strip s ++ rev w).
  { unfold strip, rstrip. rewrite <- rev_app_distr, <- Hu.
    now rewrite rev_involutive. }
  repeat split.
  - exists l, (rev w). split; [|split].
    + rewrite <- Hmid. exact Hs.
    + exact Hl.
    + now apply blank_rev.
  - intros c t' Ht. rewrite Ht in Hmid. simpl in Hmid.
    exact (lstrip_head _ _ _ Hmid).
  - intros c t' Ht. unfold strip, rstrip in Ht.
    apply (f_equal (@rev N)) in Ht.
    rewrite rev_involutive, rev_app_distr in Ht. simpl in Ht.
    exact (lstrip_head _ _ _ Ht).
Qed.

(** ** Strings: searching and splitting *)

Lemma startswith_true (s pre : pystr) :
  startswith s pre = true <-> exists suf, s = pre ++ suf.
Proof.
  revert s. induction pre as [|p pre IH]; intros s; simpl.
  - split; [intros _; now exists s|reflexivity].
  - destruct s as [|c s].
    + split; [discriminate|intros [suf [=]]].
    + rewrite andb_true_iff, N.eqb_eq, IH. split.
      * intros [-> [suf ->]]. now exists suf.
      * intros [suf [= -> ->]]. split; [reflexivity|now exists suf].
Qed.

Lemma startswith_app (sub suf : pystr) : startswith (sub ++ suf) sub = true.
Proof. apply startswith_true. now exists suf. Qed.

Lemma str_contains_true (sub s : pystr) :
  str_contains sub s = true <-> occurs sub s.
Proof.
  unfold occurs. induction s as [|c s IH]; simpl.
  - rewrite orb_false_r, startswith_true. split.
    + intros [suf H]. now exists [], suf.
    + intros [pre [suf H]]. destruct pre; [now exists suf|discriminate].
  - rewrite orb_true_iff, startswith_true, IH. split.
    + intros [[suf H]|[pre [suf H]]].
      * now exists [], suf.
      * exists (c :: pre), suf. simpl. congruence.
    + intros [pre [suf H]]. destruct pre as [|d pre]; simpl in H.
      * left. now exists suf.
      * right. injection H as _ H. now exists pre, suf.
Qed.

Lemma str_contains_false (sub s : pystr) :
  str_contains sub s = false <-> ~ occurs sub s.
Proof.
  rewrite <- str_contains_true. destruct (str_contains sub s); split;
    congruence.
Qed.

Lemma last_cons_some {A} (x y : A) (l : list A) :
  last l = Some y -> last (x :: l) = Some y.
Proof. destruct l; [discriminate|intros H; exact H]. Qed.

Lemma split_scan_skip (sep w s cur : pystr) :
  split_scan sep (w ++ s) (length w) cur = split_scan sep s 0 cur.
Proof. induction w as [|c w IH]; simpl; [reflexivity|exact IH]. Qed.

Lemma split_scan_match (sep s cur : pystr) :
  sep <> [] ->
  split_scan sep (sep ++ s) 0 cur = rev cur :: split_scan sep s 0 [].
Proof.
  destruct sep as [|p sep']; [congruence|intros _].
  simpl. rewrite N.eqb_refl, startswith_app. simpl.
  now rewrite Nat.sub_0_r, split_scan_skip.
Qed.

Section Split.

Variable sep : pystr.
Hypothesis sep_nonempty : sep <> [].

(** No occurrence of [sep] overlaps another one. *)
Hypothesis unbordered : forall d x y,
  d <> [] -> (length d < length sep)%nat -> sep ++ x <> d ++ sep ++ y.

Lemma split_scan_absent (s cur : pystr) :
  str_contains sep s = false -> split_scan sep s 0 cur = [rev cur ++ s].
Proof.
  revert cur. induction s as [|c s IH]; intros cur H; simpl in *.
  - now rewrite app_nil_r.
  - apply orb_false_iff in H as [H0 H1].
    rewrite H0, (IH _ H1). simpl. now rewrite <- app_assoc.
Qed.

Lemma split_scan_step (c : N) (s cur : pystr) :
  startswith (c :: s) sep = false ->
  split_scan sep (c :: s) 0 cur = split_scan sep s 0 (c :: cur).
Proof.
  intros H.
  change (split_scan sep (c :: s) 0 cur)
    with (if startswith (c :: s) sep
          then rev cur :: split_scan sep s (length sep - 1) []
          else split_scan sep s 0 (c :: cur)).
  now rewrite H.
Qed.

(** Two occurrences of [sep], the later one starting at least one character
    after the earlier: the later one starts after the earlier one ends. *)
Lemma occurrences_apart (d x y : pystr) :
  d <> [] -> sep ++ x = d ++ sep ++ y -> exists d', d = sep ++ d' /\ x = d' ++ sep ++ y.
Proof.
  intros Hd H.
  destruct (Nat.lt_ge_cases (length d) (length sep)) as [Hlt|Hge].
  - destruct (unbordered d x y Hd Hlt H).
  - apply app_eq_app in H as [l [[Hs Hy]|[Hd' Hx]]].
    + assert (Hl : l = []).
      { apply (f_equal (@length N)) in Hs. rewrite length_app in Hs.
        destruct l; [reflexivity|simpl in Hs; lia]. }
      rewrite Hl, app_nil_r in Hs. rewrite Hl in Hy. simpl in Hy.
      exists []. split; [now rewrite app_nil_r|now simpl].
    + exists l. split; assumption.
Qed.

(** The last piece of the split is what follows an occurrence of [sep] that
    has no occurrence after it. *)
Lemma split_scan_last (pre suf cur : pystr) :
  str_contains sep suf = false ->
  last (split_scan sep (pre ++ sep ++ suf) 0 cur) = Some suf.
Proof.
  intros Hsuf. remember (length pre) as n eqn:Hn.
  revert pre cur Hn. induction n as [n IH] using lt_wf_ind. intros pre cur Hn.
  destruct (startswith (pre ++ sep ++ suf) sep) eqn:Hs.
  - apply startswith_true in Hs as [x Hx].
    destruct pre as [|c pre].
    + simpl. rewrite split_scan_match, (split_scan_absent _ _ Hsuf)
        by exact sep_nonempty.
      reflexivity.
    + symmetry in Hx. apply occurrences_apart in Hx as [d' [Hd' _]];
        [|discriminate].
      rewrite Hd', <- app_assoc, split_scan_match by exact sep_nonempty.
      apply last_cons_some.
      apply (IH (length d')); [|reflexivity].
      rewrite Hn, Hd', length_app.
      destruct sep; [congruence|simpl; lia].
  - destruct pre as [|c pre].
    + simpl in Hs. rewrite startswith_app in Hs. discriminate.
    + change ((c :: pre) ++ sep ++ suf) with (c :: (pre ++ sep ++ suf)) in *.
      rewrite split_scan_step by exact Hs.
      apply (IH (length pre)); [subst n; simpl; lia|reflexivity].
Qed.

(** Where [sep] occurs at all it occurs a last time. *)
Lemma occurs_last (s : pystr) :
  occurs sep s -> exists pre suf, s = pre ++ sep ++ suf /\ str_contains sep suf = false.
Proof.
  remember (length s) as n eqn:Hn. revert s Hn.
  induction n as [n IH] using lt_wf_ind. intros s Hn [pre [suf Hs]].
  destruct (str_contains sep suf) eqn:Hc.
  - apply str_contains_true in Hc.
    destruct (IH (length suf)) with (s := suf) as [pre2 [suf2 [H2 Hc2]]];
      [|reflexivity|exact Hc|].
    + subst n s. rewrite !length_app. destruct sep; [congruence|simpl; lia].
    + exists (pre ++ sep ++ pre2), suf2. split; [|exact Hc2].
      rewrite Hs, H2. now rewrite <- !app_assoc.
  - now exists pre, suf.
Qed.

Lemma absent_after_is_last (pre suf : pystr) :
  str_contains sep suf = false ->
  last_occurrence sep (pre ++ sep ++ suf) pre suf.
Proof.
  intros Hc. split; [reflexivity|]. intros pre' suf' H.
  destruct (Nat.le_gt_cases (length pre') (length pre)) as [Hle|Hgt];
    [exact Hle|exfalso].
  apply app_eq_app in H as [d [[Hp Hr]|[Hp Hr]]].
  - apply (f_equal (@length N)) in Hp. rewrite length_app in Hp. lia.
  - assert (Hd : d <> []).
    { intros ->. rewrite app_nil_r in Hp. subst. lia. }
    apply occurrences_apart in Hr as [d' [_ Hsuf]]; [|exact Hd].
    apply str_contains_false in Hc. apply Hc. now exists d', suf'.
Qed.

End Split.

(** ** The closing marker *)

Lemma MARKER_nonempty : MARKER <> [].
Proof. discriminate. Qed.

Lemma MARKER_chars : MARKER = [91; 47; 73; 78; 83; 84; 93]%N.
Proof. reflexivity. Qed.

(** ["[/INST]"] has its opening bracket in first position only, so two
    occurrences never overlap. *)
Lemma MARKER_unbordered (d x y : pystr) :
  d <> [] -> (length d < length MARKER)%nat -> MARKER ++ x <> d ++ MARKER ++ y.
Proof.
  rewrite MARKER_chars. intros Hd Hlen H.
  do 7 (destruct d as [|? d]; [simpl in H; congruence|]).
  simpl in Hlen. lia.
Qed.

Lemma split_MARKER_last (pre suf : pystr) :
  str_contains MARKER suf = false ->
  last (split_scan MARKER (pre ++ MARKER ++ suf) 0 []) = Some suf.
Proof.
  apply split_scan_last; [exact MARKER_nonempty|exact MARKER_unbordered].
Qed.

(** ** The parser on a well-shaped body *)

Section Parser.

Variable str_value : value -> pystr.

Lemma parse_result_record (v : value) (g : pystr) :
  answers v g ->
  parse_result str_value v =
    if str_contains MARKER g
    then piece ← getitem_last (split_scan MARKER g 0 []); mret (strip piece)
    else Return (strip g).
Proof.
  intros (fields & rest & -> & Hf).
  unfold parse_result. cbn. rewrite Hf. cbn.
  replace (0 <? Z.of_nat (S (length rest))) with true
    by (symmetry; apply Z.ltb_lt; lia).
  cbn. destruct (str_contains MARKER g); reflexivity.
Qed.

Lemma parse_result_marker (v : value) (pre suf : pystr) :
  answers v (pre ++ MARKER ++ suf) ->
  str_contains MARKER suf = false ->
  parse_result str_value v = Return (strip suf).
Proof.
  intros Hv Hsuf. rewrite (parse_result_record _ _ Hv).
  assert (Hc : str_contains MARKER (pre ++ MARKER ++ suf) = true).
  { apply str_contains_true. now exists pre, suf. }
  rewrite Hc. unfold getitem_last.
  rewrite (split_MARKER_last _ _ Hsuf). reflexivity.
Qed.

Lemma parse_result_plain (v : value) (g : pystr) :
  answers v g -> ~ occurs MARKER g ->
  parse_result str_value v = Return (strip g).
Proof.
  intros Hv Hno. rewrite (parse_result_record _ _ Hv).
  apply str_contains_false in Hno. now rewrite Hno.
Qed.

End Parser.

(** ** One call of the function body *)

Lemma wrap_inj (p q : pystr) : wrap p = wrap q -> p = q.
Proof.
  unfold wrap. intros H. apply app_inv_head in H. now apply app_inv_tail in H.
Qed.

Section Query.

Variable str_value : value -> pystr.
Variable network : nat -> Payload -> outcome Response.

Lemma body_unfold (prompt model_name : pystr) (st : State) :
  query_huggingface_body str_value network prompt model_name st =
    let st' := posted st (request_payload prompt) in
    match after_post str_value
            (network (length (sent st)) (request_payload prompt)) with
    | Return s => (Return s, st')
    | Raise e =>
        match handlers model_name e with
        | Some h => h st'
        | None => (Raise e, st')
        end
    end.
Proof.
  unfold query_huggingface_body, try_except, after_post, requests_post, lift.
  unfold mbind, M_bind, outcome_bind, bind.
  change (mkPayload (lit "<s>[INST] " ++ prompt ++ lit " [/INST]")
            (mkParameters 512 0.7 true 0.95)) with (request_payload prompt).
  cbn. destruct (network _ _) as [r|e]; cbn; [|reflexivity].
  destruct (raise_for_status r) as [[]|e]; cbn; [|reflexivity].
  destruct (json r) as [v|e]; cbn; [|reflexivity].
  destruct (parse_result str_value v); reflexivity.
Qed.

End Query.

(** ** The parser on every other body *)

Section Mismatch.

Variable str_value : value -> pystr.

(** On a non-empty list the parser only ever looks at the first element. *)
Lemma parse_result_cons (first : value) (rest : list value) :
  parse_result str_value (VList (first :: rest)) =
    (shape ← py_in FIELD first;
     if shape : bool then
       generated_text ← getitem_str first FIELD;
       echoed ← py_in MARKER generated_text;
       if echoed : bool then
         pieces ← call_split generated_text MARKER;
         piece ← getitem_last pieces;
         mret (strip piece)
       else call_strip generated_text
     else mret (format_error str_value (VList (first :: rest)))).
Proof.
  unfold parse_result. cbn.
  replace (0 <? Z.of_nat (S (length rest))) with true
    by (symmetry; apply Z.ltb_lt; lia).
  reflexivity.
Qed.

(** The possible ends of the parser on a body without a textual
    [generated_text] in a leading record: the format message, or a
    [TypeError] or [AttributeError] raised by the look-ups. *)
Lemma parse_result_mismatch (v : value) :
  (~ exists g, answers v g) ->
  parse_result str_value v = Return (format_error str_value v)
  \/ exists d, parse_result str_value v = Raise (TypeError d)
               \/ parse_result str_value v = Raise (AttributeError d).
Proof.
  intros Hv.
  destruct v as [| | | | |items|]; try (left; reflexivity).
  destruct items as [|first rest]; [left; reflexivity|].
  rewrite parse_result_cons.
  destruct first as [| | | |s|inner|fields]; cbn;
    try (right; eexists; left; reflexivity).
  - destruct (str_contains FIELD s); cbn;
      [right; eexists; left; reflexivity|left; reflexivity].
  - destruct (existsb (is_str FIELD) inner); cbn;
      [right; eexists; left; reflexivity|left; reflexivity].
  - destruct (fields !! FIELD) as [x|] eqn:Hf; cbn; [|left; reflexivity].
    destruct x as [| | | |g|inner|inner]; cbn;
      try (right; eexists; left; reflexivity).
    + destruct Hv. now exists g, fields, rest.
    + destruct (existsb (is_str MARKER) inner); cbn;
        right; eexists; right; reflexivity.
    + destruct (bool_decide (is_Some (inner !! MARKER))); cbn;
        right; eexists; right; reflexivity.
Qed.

End Mismatch.

(** ** Answer extraction (claim C1) *)

Lemma after_post_response (str_value : value -> pystr) (r : Response) :
  after_post str_value (Return r) =
    if (400 <=? status_code r) && (status_code r <? 600)
    then Raise (HTTPError r)
    else result ← json r; parse_result str_value result.
Proof.
  unfold after_post, raise_for_status. cbn.
  destruct ((400 <=? status_code r) && (status_code r <? 600)); reflexivity.
Qed.

Lemma after_post_delivered (str_value : value -> pystr) network st prompt v :
  delivers network st prompt v ->
  after_post str_value (network (length (sent st)) (request_payload prompt))
  = parse_result str_value v.
Proof.
  intros (r & -> & Hs & Hb). rewrite after_post_response.
  replace ((400 <=? status_code r) && (status_code r <? 600)) with false
    by (symmetry; apply andb_false_iff; left; apply Z.leb_gt; lia).
  unfold json. now rewrite Hb.
Qed.

Lemma extracted_exists (g : pystr) :
  exists t, extracted g t
    /\ forall str_value v, answers v g -> parse_result str_value v = Return t.
Proof.
  destruct (str_contains MARKER g) eqn:Hc.
  - apply str_contains_true in Hc.
    destruct (occurs_last MARKER MARKER_nonempty MARKER_unbordered g Hc) as (pre & suf & Hg & Hsuf).
    exists (strip suf). split; [split|].
    + intros _. exists pre, suf. repeat split.
      * exact Hg.
      * rewrite Hg.
        apply (absent_after_is_last MARKER MARKER_unbordered pre suf Hsuf).
      * apply strip_trimmed.
      * apply strip_trimmed.
      * apply strip_trimmed.
    + intros Hno. now destruct Hno.
    + intros sv v Hv. subst g. now apply parse_result_marker with (pre := pre).
  - apply str_contains_false in Hc.
    exists (strip g). split; [split|].
    + intros Hyes. now destruct Hc.
    + intros _. split; [reflexivity|apply strip_trimmed].
    + intros sv v Hv. now apply parse_result_plain.
Qed.

(** C1: on a 2xx response whose body decodes to a non-empty list with a
    leading record holding the text [g] under ["generated_text"], the parser,
    and with it [query_huggingface], returns the trimmed text after the last
    ["[/INST]"] of [g] when [g] has one, and the whole of [g] trimmed
    otherwise. *)
Theorem C1_answer_after_last_marker
    (str_value : value -> pystr) (network : nat -> Payload -> outcome Response)
    (prompt model_name : pystr) (st : State) (v : value) (g : pystr) :
  delivers network st prompt v ->
  answers v g ->
  exists answer,
    extracted g answer
    /\ parse_result str_value v = Return answer
    /\ query_huggingface_body str_value network prompt model_name st
       = (Return answer, posted st (request_payload prompt)).
Proof.
  intros Hd Hv. destruct (extracted_exists g) as (t & Ht & Hp).
  exists t. split; [exact Ht|]. split; [now apply Hp|].
  rewrite body_unfold. cbn zeta.
  rewrite (after_post_delivered _ _ _ _ _ Hd), (Hp str_value v Hv).
  reflexivity.
Qed.

Lemma C1_answer_after_last_marker_witness :
  exists answer,
    extracted sample_text answer
    /\ parse_result no_str sample_body = Return answer
    /\ query_huggingface_body no_str (sample_network sample_body)
         (lit "X") default_model_name initial
       = (Return answer, posted initial (request_payload (lit "X"))).
Proof.
  apply C1_answer_after_last_marker.
  - eexists. split; [reflexivity|]. split; [simpl; lia|reflexivity].
  - eexists _, _. split; [reflexivity|]. apply lookup_singleton_eq.
Defined.

(** C1 as stated fails on [null_field]: the first record has a
    ["generated_text"] field, yet the reply is no trimmed text but the
    generic error message, the membership test on [None] having raised. *)
Lemma C1_counterexample :
  exposes_field null_field
  /\ delivers (sample_network null_field) initial (lit "X") null_field
  /\ (exists detail, parse_result no_str null_field = Raise (TypeError detail))
  /\ (exists detail,
        fst (query_huggingface_body no_str (sample_network null_field)
               (lit "X") default_model_name initial)
        = Return (unexpected_error detail)).
Proof.
  split; [|split; [|split]].
  - eexists _, _. split; [reflexivity|]. rewrite lookup_singleton_eq. eauto.
  - eexists. split; [reflexivity|]. split; [simpl; lia|reflexivity].
  - eexists. reflexivity.
  - eexists. reflexivity.
Qed.

(** The two parses the specification lists. *)
Example parse_echoed_instruction (str_value : value -> pystr) :
  parse_result str_value sample_body = Return (lit "answer").
Proof. reflexivity. Qed.

Example parse_plain_text (str_value : value -> pystr) :
  parse_result str_value
    (VList [VDict {[ FIELD := VStr (lit "plain text, no marker") ]}])
  = Return (lit "plain text, no marker").
Proof. reflexivity. Qed.

(** ** Failure classification (claim C2) *)

Lemma handlers_render (model_name : pystr) (e : exn) :
  handlers model_name e = Some (mret (render model_name (classify e))).
Proof.
  destruct e as [r|d|d|d|d|d|d|d|d]; try reflexivity.
  cbn. unfold classify_status.
  destruct (status_code r =? 404) eqn:H1;
    [apply Z.eqb_eq in H1; now rewrite H1|].
  destruct (status_code r =? 401) eqn:H2;
    [apply Z.eqb_eq in H2; now rewrite H2|].
  destruct (status_code r =? 503) eqn:H3;
    [apply Z.eqb_eq in H3; now rewrite H3|].
  apply Z.eqb_neq in H1, H2, H3.
  destruct (status_code r) as [|p|p] eqn:Hs; try reflexivity.
  do 9 (destruct p as [p|p|]; try reflexivity); congruence.
Qed.

Lemma body_expected (str_value : value -> pystr)
    (network : nat -> Payload -> outcome Response)
    (prompt model_name : pystr) (st : State) :
  query_huggingface_body str_value network prompt model_name st
  = (Return (expected_reply str_value model_name
               (network (length (sent st)) (request_payload prompt))),
     posted st (request_payload prompt)).
Proof.
  rewrite body_unfold. cbn zeta.
  destruct (network _ _) as [r|e]; cbn [expected_reply].
  - rewrite after_post_response. fold (is_http_error (status_code r)).
    destruct (is_http_error (status_code r)).
    + rewrite handlers_render. reflexivity.
    + destruct (json r ≫= _) as [s|e]; [reflexivity|].
      rewrite handlers_render. reflexivity.
  - cbn. rewrite handlers_render. reflexivity.
Qed.

(** C2: whatever the POST gives, [query_huggingface] returns the reply of the
    specification's table: the parser's reply to a body that comes without an
    error status (every 2xx status is such), NotFound for 404 with the model
    id and the endpoint URL in the message, Unauthorized for 401 with the
    advice to check the token, ServiceBusy for 503, OtherHttp with the status
    and the raw body for any other 4xx or 5xx status, ConnectionFailure with
    its detail for a connection error, and Unknown with its detail for any
    other exception. *)
Theorem C2_outcome_classification (str_value : value -> pystr)
    (network : nat -> Payload -> outcome Response)
    (prompt model_name : pystr) (st : State) :
  query_huggingface_body str_value network prompt model_name st
  = (Return (expected_reply str_value model_name
               (network (length (sent st)) (request_payload prompt))),
     posted st (request_payload prompt))
  /\ (forall status, 200 <= status < 300 -> is_http_error status = false)
  /\ (forall status, 400 <= status < 600 -> is_http_error status = true)
  /\ occurs model_name (render model_name NotFound)
  /\ occurs API_URL (render model_name NotFound)
  /\ occurs (lit "check your Hugging Face API token") (render model_name Unauthorized)
  /\ occurs (lit "currently loading or busy") (render model_name ServiceBusy)
  /\ (forall status body,
        occurs (str_int status) (render model_name (OtherHttp status body))
        /\ occurs body (render model_name (OtherHttp status body)))
  /\ (forall detail, occurs detail (render model_name (ConnectionFailure detail)))
  /\ (forall detail, occurs detail (render model_name (Unknown detail))).
Proof.
  split; [apply body_expected|].
  split; [intros s Hs; unfold is_http_error; apply andb_false_iff; left;
          apply Z.leb_gt; lia|].
  split; [intros s Hs; unfold is_http_error; apply andb_true_iff; split;
          [apply Z.leb_le|apply Z.ltb_lt]; lia|].
  split; [exists (CROSS ++ lit " Error 404: Model '"),
            (lit "' not found at " ++ API_URL
               ++ lit ". Please double-check the model ID and its availability on Hugging Face.");
          cbn [render]; rewrite <- !app_assoc; reflexivity|].
  split; [exists (CROSS ++ lit " Error 404: Model '" ++ model_name
                    ++ lit "' not found at "),
            (lit ". Please double-check the model ID and its availability on Hugging Face.");
          cbn [render]; rewrite <- !app_assoc; reflexivity|].
  split; [exists (CROSS ++ lit " Error 401: Unauthorized. Please "),
            (lit " (HF_API_KEY)."); reflexivity|].
  split; [exists (CROSS ++ lit " Error 503: Service Unavailable. The model '"
                    ++ model_name ++ lit "' is "),
            (lit ". Please try again in a moment."); cbn [render];
          rewrite <- !app_assoc; reflexivity|].
  split; [intros status body; split;
          [exists (CROSS ++ lit " HTTP Error "), (lit ": " ++ body)
          |exists (CROSS ++ lit " HTTP Error " ++ str_int status ++ lit ": "), []];
          cbn [render]; rewrite <- ?app_assoc, ?app_nil_r; reflexivity|].
  split; intros detail.
  - exists (CROSS ++ lit " Connection Error: Could not connect to Hugging Face API. Please check your internet connection. Details: "), [].
    cbn [render]. now rewrite app_nil_r, <- app_assoc.
  - exists (CROSS ++ lit " An unexpected error occurred during API call: "), [].
    cbn [render]. unfold unexpected_error. now rewrite app_nil_r, <- app_assoc.
Qed.

Lemma C2_outcome_classification_witness :
  fst (query_huggingface_body no_str missing_model (lit "X")
         default_model_name initial)
  = Return (render default_model_name NotFound)
  /\ is_http_error 200 = false
  /\ is_http_error 404 = true.
Proof.
  destruct (C2_outcome_classification no_str missing_model (lit "X")
              default_model_name initial) as (Hreply & Hok & Hbad & _).
  split; [|split].
  - exact (f_equal fst Hreply).
  - apply Hok. lia.
  - apply Hbad. lia.
Defined.

(** ** Every reply is a string (claim C8) *)

Lemma render_flagged (model_name : pystr) (d : ErrorDescriptor) :
  flagged (render model_name d).
Proof. destruct d; eexists; reflexivity. Qed.

Lemma format_error_flagged (str_value : value -> pystr) (v : value) :
  flagged (format_error str_value v).
Proof. eexists; reflexivity. Qed.

Lemma answers_cases (v : value) :
  (exists g, answers v g) \/ ~ (exists g, answers v g).
Proof.
  destruct v as [| | | | |[|[| | | | | |fields] rest]|];
    try solve [right; intros (g & f & r & ? & ?); simplify_eq].
  destruct (fields !! FIELD) as [[| | | |g| |]|] eqn:Hf;
    try solve [right; intros (g' & f & r & ? & ?); simplify_eq].
  left. now exists g, fields, rest.
Qed.

(** The decorated function, step by step: a hit returns the stored reply and
    leaves the state alone; a miss posts once and stores the reply. *)
Lemma query_huggingface_run (str_value : value -> pystr)
    (network : nat -> Payload -> outcome Response)
    (prompt model_name : pystr) (st : State) :
  query_huggingface str_value network prompt model_name st =
    match cache st !! (prompt, model_name) with
    | Some reply => (Return reply, st)
    | None =>
        let reply := expected_reply str_value model_name
                       (network (length (sent st)) (request_payload prompt)) in
        (Return reply,
         mkState (<[(prompt, model_name) := reply]> (cache st))
           (sent st ++ [request_payload prompt]) (screen st))
    end.
Proof.
  unfold query_huggingface, cache_data.
  destruct (cache st !! (prompt, model_name)); [reflexivity|].
  rewrite body_expected. reflexivity.
Qed.

(** C8: whatever the endpoint does, a response of any status or an exception
    raised on the way, [query_huggingface] returns a string and lets no
    exception out; and the string is either flagged with the cross mark or is
    the answer extracted from a well-shaped body that came without an error
    status. *)
Theorem C8_reply_is_always_a_string (str_value : value -> pystr)
    (network : nat -> Payload -> outcome Response)
    (prompt model_name : pystr) (st : State) :
  exists reply,
    query_huggingface_body str_value network prompt model_name st
    = (Return reply, posted st (request_payload prompt))
    /\ (exists stored st',
          query_huggingface str_value network prompt model_name st
          = (Return stored, st'))
    /\ (flagged reply
        \/ exists r v g,
             network (length (sent st)) (request_payload prompt) = Return r
             /\ is_http_error (status_code r) = false
             /\ body_json r = Decoded v
             /\ answers v g
             /\ extracted g reply).
Proof.
  eexists. split; [apply body_expected|]. split.
  { rewrite query_huggingface_run.
    destruct (cache st !! (prompt, model_name)); eexists _, _; reflexivity. }
  destruct (network _ _) as [r|e] eqn:Hnet; cbn [expected_reply];
    [|left; apply render_flagged].
  destruct (is_http_error (status_code r)) eqn:Hst; [left; apply render_flagged|].
  unfold json. destruct (body_json r) as [v|d] eqn:Hb; cbn;
    [|left; apply (render_flagged model_name (Unknown d))].
  destruct (answers_cases v) as [[g Hg]|Hno].
  - right. destruct (extracted_exists g) as (t & Ht & Hp).
    rewrite (Hp str_value v Hg). now exists r, v, g.
  - left. destruct (parse_result_mismatch str_value v Hno) as [->|[d [->| ->]]].
    + apply format_error_flagged.
    + apply (render_flagged model_name (Unknown d)).
    + apply (render_flagged model_name (Unknown d)).
Qed.

(** C8 as stated fails in its last part: the prefix does not tell an error
    from an answer.  A 200 response whose generated text is the wording of
    the 401 message and a real 401 response get the same reply. *)
Lemma C8_counterexample :
  delivers (sample_network mimic_body) initial (lit "X") mimic_body
  /\ (exists g, answers mimic_body g)
  /\ fst (query_huggingface_body no_str (sample_network mimic_body)
            (lit "X") default_model_name initial)
     = Return (render default_model_name Unauthorized)
  /\ fst (query_huggingface_body no_str unauthorized
            (lit "X") default_model_name initial)
     = Return (render default_model_name Unauthorized)
  /\ flagged (render default_model_name Unauthorized).
Proof.
  split; [|split; [|split; [|split]]].
  - eexists. split; [reflexivity|]. split; [simpl; lia|reflexivity].
  - eexists _, _, _. split; [reflexivity|]. apply lookup_singleton_eq.
  - vm_compute. reflexivity.
  - vm_compute. reflexivity.
  - apply render_flagged.
Qed.

(** ** Bodies of another shape (claims C4 and C9) *)

Lemma bind_return {A B} (a : A) (k : A -> outcome B) : (Return a ≫= k) = k a.
Proof. reflexivity. Qed.

Lemma unexpected_not_format (detail : pystr) (str_value : value -> pystr)
    (v : value) :
  unexpected_error detail <> format_error str_value v.
Proof.
  unfold unexpected_error, format_error. intros H.
  apply app_inv_head in H. vm_compute in H. congruence.
Qed.

Lemma body_delivered (str_value : value -> pystr)
    (network : nat -> Payload -> outcome Response)
    (prompt model_name : pystr) (st : State) (v : value) :
  delivers network st prompt v ->
  query_huggingface_body str_value network prompt model_name st
  = (Return match parse_result str_value v with
            | Return answer => answer
            | Raise e => render model_name (classify e)
            end,
     posted st (request_payload prompt)).
Proof.
  intros Hd. rewrite body_unfold. cbn zeta.
  rewrite (after_post_delivered _ _ _ _ _ Hd).
  destruct (parse_result str_value v); [reflexivity|].
  now rewrite handlers_render.
Qed.

Lemma existsb_is_str (s : pystr) (l : list value) :
  existsb (is_str s) l = true <-> VStr s ∈ l.
Proof.
  rewrite existsb_exists. split.
  - intros (x & Hin & Hx). apply list_elem_of_In in Hin.
    destruct x; try discriminate Hx. unfold is_str, str_eqb in Hx.
    apply bool_decide_eq_true in Hx. now subst.
  - intros Hin. exists (VStr s). split; [now apply list_elem_of_In|].
    unfold is_str, str_eqb. now apply bool_decide_eq_true.
Qed.

Lemma parse_result_unexpected_format (str_value : value -> pystr) (v : value) :
  unexpected_format v ->
  parse_result str_value v = Return (format_error str_value v).
Proof.
  intros [v' Hv| |fields rest Hf|s rest Hs|inner rest Hi].
  - destruct v'; try reflexivity. discriminate Hv.
  - reflexivity.
  - rewrite parse_result_cons. cbn. rewrite Hf. reflexivity.
  - rewrite parse_result_cons. cbn. apply str_contains_false in Hs.
    now rewrite Hs.
  - rewrite parse_result_cons. cbn.
    destruct (existsb (is_str FIELD) inner) eqn:He; [|reflexivity].
    apply existsb_is_str in He. contradiction.
Qed.




(** C9: with a body whose first element is a string containing
    ["generated_text"], the shape test passes on a substring match, the field
    access raises, and the reply is the generic "An unexpected error
    occurred" message, not the format message; a body that is no JSON at all
    ends in the same generic message.  In both cases the function returns. *)
Theorem C9_string_element_reaches_generic_handler (str_value : value -> pystr)
    (network : nat -> Payload -> outcome Response)
    (prompt model_name : pystr) (st : State) (r : Response) :
  network (length (sent st)) (request_payload prompt) = Return r ->
  is_http_error (status_code r) = false ->
  (forall s rest,
     body_json r = Decoded (VList (VStr s :: rest)) ->
     occurs FIELD s ->
     py_in FIELD (VStr s) = Return true
     /\ exists detail,
          getitem_str (VStr s) FIELD = Raise (TypeError detail)
          /\ query_huggingface_body str_value network prompt model_name st
             = (Return (unexpected_error detail),
                posted st (request_payload prompt))
          /\ unexpected_error detail
             <> format_error str_value (VList (VStr s :: rest)))
  /\ (forall detail,
        body_json r = Undecodable detail ->
        query_huggingface_body str_value network prompt model_name st
        = (Return (unexpected_error detail), posted st (request_payload prompt))).
Proof.
  intros Hnet Hst. split.
  - intros s rest Hb Hs. apply str_contains_true in Hs.
    split; [cbn; now rewrite Hs|].
    eexists. split; [reflexivity|]. split; [|apply unexpected_not_format].
    rewrite body_expected, Hnet. cbn [expected_reply]. rewrite Hst.
    unfold json. rewrite Hb.
    rewrite bind_return, parse_result_cons. cbn. rewrite Hs. reflexivity.
  - intros detail Hb.
    rewrite body_expected, Hnet. cbn [expected_reply]. rewrite Hst.
    unfold json. rewrite Hb. reflexivity.
Qed.

Lemma C9_string_element_reaches_generic_handler_witness :
  (py_in FIELD (VStr FIELD) = Return true
   /\ exists detail,
        getitem_str (VStr FIELD) FIELD = Raise (TypeError detail)
        /\ query_huggingface_body no_str (sample_network string_in_list)
             (lit "X") default_model_name initial
           = (Return (unexpected_error detail),
              posted initial (request_payload (lit "X")))
        /\ unexpected_error detail <> format_error no_str string_in_list).
Proof.
  refine (proj1 (C9_string_element_reaches_generic_handler no_str
                   (sample_network string_in_list) (lit "X")
                   default_model_name initial
                   (mkResponse 200 [] (Decoded string_in_list)) _ _)
            FIELD [] _ _).
  - reflexivity.
  - reflexivity.
  - reflexivity.
  - exists [], []. reflexivity.
Defined.

(** ** Empty answers (claim C10) *)

Lemma blank_no_marker (s : pystr) : blank s -> str_contains MARKER s = false.
Proof.
  intros Hs. apply str_contains_false. intros (pre & suf & ->).
  apply Forall_app in Hs as [_ Hs]. apply Forall_app in Hs as [Hs _].
  rewrite MARKER_chars in Hs. inversion Hs as [|c l Hc _]. discriminate Hc.
Qed.

Lemma nil_not_flagged : ~ flagged [].
Proof. intros [t Ht]. discriminate Ht. Qed.

(** C10: when the generated text of a well-shaped body is blank, or is blank
    after its last marker, the parser returns the empty string as an answer,
    and so does [query_huggingface]: the reply carries no error flag. *)
Theorem C10_blank_answer_is_a_success (str_value : value -> pystr)
    (network : nat -> Payload -> outcome Response)
    (prompt model_name : pystr) (st : State) (v : value) (g : pystr) :
  delivers network st prompt v ->
  answers v g ->
  blank g \/ (exists pre suf, g = pre ++ MARKER ++ suf /\ blank suf) ->
  parse_result str_value v = Return []
  /\ query_huggingface_body str_value network prompt model_name st
     = (Return [], posted st (request_payload prompt))
  /\ ~ flagged [].
Proof.
  intros Hd Hv Hg.
  assert (Hp : parse_result str_value v = Return []).
  { destruct Hg as [Hg|(pre & suf & -> & Hsuf)].
    - rewrite (parse_result_plain str_value v g Hv).
      + now rewrite (strip_blank g Hg).
      + apply str_contains_false. now apply blank_no_marker.
    - rewrite (parse_result_marker str_value v pre suf Hv).
      + now rewrite (strip_blank suf Hsuf).
      + now apply blank_no_marker. }
  split; [exact Hp|]. split; [|exact nil_not_flagged].
  rewrite (body_delivered _ _ _ _ _ _ Hd), Hp. reflexivity.
Qed.

Lemma C10_blank_answer_is_a_success_witness :
  parse_result no_str echo_only_body = Return []
  /\ query_huggingface_body no_str (sample_network echo_only_body) (lit "X")
       default_model_name initial
     = (Return [], posted initial (request_payload (lit "X")))
  /\ ~ flagged [].
Proof.
  apply (C10_blank_answer_is_a_success no_str (sample_network echo_only_body)
           (lit "X") default_model_name initial echo_only_body echo_only).
  - eexists. split; [reflexivity|]. split; [simpl; lia|reflexivity].
  - eexists _, _. split; [reflexivity|]. apply lookup_singleton_eq.
  - right. exists (lit "<s>[INST] X "), (lit "  "). split; [reflexivity|].
    repeat constructor.
Defined.

(** ** The button handler (claims C6 and C7) *)

(** C6: on an input that is blank, that is empty once trimmed, the handler
    only shows the warning: the cache and the log of outbound requests are as
    before, so no prompt was looked up and no request was made. *)
Theorem C6_blank_input_is_rejected (str_value : value -> pystr)
    (network : nat -> Payload -> outcome Response)
    (option user_input : pystr) (st : State) :
  blank user_input ->
  strip user_input = []
  /\ on_click str_value network option user_input st = (Return tt, warned st).
Proof.
  intros Hb. pose proof (strip_blank user_input Hb) as Hs.
  split; [exact Hs|]. unfold on_click. rewrite Hs. reflexivity.
Qed.

Lemma C6_blank_input_is_rejected_witness :
  strip (lit "  " ++ NL) = []
  /\ on_click no_str (sample_network sample_body) QUIZ_QUESTIONS
       (lit "  " ++ NL) initial
     = (Return tt, warned initial).
Proof.
  apply C6_blank_input_is_rejected. repeat constructor.
Defined.

(** What a click does to the cache and to the log of outbound requests. *)
Lemma on_click_effect (str_value : value -> pystr)
    (network : nat -> Payload -> outcome Response)
    (option user_input : pystr) (st : State) :
  let prompt := build_prompt option user_input in
  let st' := snd (on_click str_value network option user_input st) in
  fst (on_click str_value network option user_input st) = Return tt
  /\ if str_eqb (strip user_input) [] then
       cache st' = cache st /\ sent st' = sent st
     else
       match cache st !! (prompt, default_model_name) with
       | Some _ => cache st' = cache st /\ sent st' = sent st
       | None =>
           cache st'
           = <[(prompt, default_model_name) :=
                 expected_reply str_value default_model_name
                   (network (length (sent st)) (request_payload prompt))]>
               (cache st)
           /\ sent st' = sent st ++ [request_payload prompt]
       end.
Proof.
  cbn zeta. unfold on_click.
  destruct (str_eqb (strip user_input) []); [now split|].
  unfold mbind, M_bind. rewrite query_huggingface_run.
  destruct (cache st !! (build_prompt option user_input, default_model_name));
    cbn; now split.
Qed.

(** C7: the request that a click sends, when it sends one, is the payload of
    the specification: the prompt between the chat markers under [inputs],
    and under [parameters] the four constants 512, 0.7, true and 0.95,
    whatever the feature and the input; and every call of the function body
    sends exactly that payload. *)
Theorem C7_payload_is_fixed (str_value : value -> pystr)
    (network : nat -> Payload -> outcome Response)
    (option user_input : pystr) (st : State) :
  let prompt := build_prompt option user_input in
  let st' := snd (on_click str_value network option user_input st) in
  request_payload prompt
  = {| inputs := lit "<s>[INST] " ++ prompt ++ lit " [/INST]";
       parameters := {| max_new_tokens := 512; temperature := 0.7%float;
                        do_sample := true; top_p := 0.95%float |} |}
  /\ (sent st' = sent st \/ sent st' = sent st ++ [request_payload prompt])
  /\ sent (snd (query_huggingface_body str_value network prompt
                  default_model_name st))
     = sent st ++ [request_payload prompt]
  /\ Forall (fun q => parameters q = GenerationParameters)
       (drop (length (sent st)) (sent st')).
Proof.
  cbn zeta. split; [reflexivity|].
  destruct (on_click_effect str_value network option user_input st) as [_ H].
  cbn zeta in H.
  assert (Hsent :
    sent (snd (on_click str_value network option user_input st)) = sent st
    \/ sent (snd (on_click str_value network option user_input st))
       = sent st ++ [request_payload (build_prompt option user_input)]).
  { destruct (str_eqb (strip user_input) []); [left; apply H|].
    destruct (cache st !! _); [left|right]; apply H. }
  split; [exact Hsent|]. split; [now rewrite body_expected|].
  destruct Hsent as [-> | ->].
  - rewrite drop_all. constructor.
  - rewrite drop_app_length. repeat constructor.
Qed.

(** ** Memoisation (claim C3) *)

Lemma memoised_initial : memoised initial.
Proof.
  split; [constructor|]. intros q Hq. cbn in Hq. now apply elem_of_nil in Hq.
Qed.

Lemma memoised_click (str_value : value -> pystr)
    (network : nat -> Payload -> outcome Response)
    (option user_input : pystr) (st : State) :
  memoised st ->
  memoised (snd (on_click str_value network option user_input st)).
Proof.
  intros [Hnd Hlog].
  destruct (on_click_effect str_value network option user_input st) as [_ H].
  cbn zeta in H. unfold memoised.
  destruct (str_eqb (strip user_input) []);
    [destruct H as [-> ->]; now split|].
  destruct (cache st !! (build_prompt option user_input, default_model_name))
    as [reply|] eqn:Hc; [destruct H as [-> ->]; now split|].
  destruct H as [-> ->]. split.
  - rewrite fmap_app. apply NoDup_app. split; [exact Hnd|].
    split; [|apply NoDup_singleton].
    intros i Hi Hi'. apply list_elem_of_singleton in Hi'. cbn in Hi'.
    apply list_elem_of_fmap in Hi as (q & -> & Hq).
    destruct (Hlog q Hq) as (p & -> & Hp). cbn in Hi'.
    apply wrap_inj in Hi'. subst p. rewrite Hc in Hp. now destruct Hp.
  - intros q Hq. apply elem_of_app in Hq as [Hq|Hq].
    + destruct (Hlog q Hq) as (p & -> & Hp). exists p. split; [reflexivity|].
      apply lookup_insert_is_Some'. now right.
    + apply list_elem_of_singleton in Hq. subst q.
      exists (build_prompt option user_input). split; [reflexivity|].
      apply lookup_insert_is_Some'. now left.
Qed.

Lemma memoised_run (str_value : value -> pystr)
    (network : nat -> Payload -> outcome Response)
    (clicks : list (pystr * pystr)) (st : State) :
  memoised st -> memoised (run str_value network clicks st).
Proof.
  revert st. induction clicks as [|[option user_input] later IH]; intros st Hst.
  - exact Hst.
  - cbn. apply IH. now apply memoised_click.
Qed.

Lemma NoDup_fmap_filter_le {A B} `{EqDecision B} (f : A -> B) (y : B)
    (l : list A) :
  NoDup (f <$> l) -> (length (filter (fun x => f x = y) l) <= 1)%nat.
Proof.
  induction l as [|x l IH]; intros Hnd; [cbn; lia|].
  rewrite fmap_cons in Hnd. apply NoDup_cons in Hnd as [Hx Hnd].
  rewrite filter_cons. destruct (decide (f x = y)) as [Hy|Hy]; [|now apply IH].
  assert (Hnil : filter (fun x => f x = y) l = []).
  { clear IH Hnd. induction l as [|z l IHl]; [reflexivity|].
    rewrite filter_cons. destruct (decide (f z = y)) as [Hz|Hz].
    - destruct Hx. rewrite fmap_cons, Hy, Hz. left.
    - apply IHl. intros Hin. apply Hx. rewrite fmap_cons. now right. }
  rewrite Hnil. cbn. lia.
Qed.

(** C3: two calls with the same arguments in a row give the same reply, the
    second without touching the state, and between them the log of outbound
    requests grows by exactly one entry when the prompt was not in the cache
    and by none when it was; and over any succession of clicks from the start
    of the process, no prompt is ever sent more than once. *)
Theorem C3_one_call_per_prompt (str_value : value -> pystr)
    (network : nat -> Payload -> outcome Response) :
  (forall prompt model_name st,
     let first := query_huggingface str_value network prompt model_name st in
     let second :=
       query_huggingface str_value network prompt model_name (snd first) in
     fst second = fst first
     /\ snd second = snd first
     /\ sent (snd second)
        = match cache st !! (prompt, model_name) with
          | Some _ => sent st
          | None => sent st ++ [request_payload prompt]
          end)
  /\ (forall clicks prompt,
        (calls_for prompt (run str_value network clicks initial) <= 1)%nat).
Proof.
  split.
  - intros prompt model_name st. cbn zeta.
    rewrite (query_huggingface_run _ _ _ _ st).
    destruct (cache st !! (prompt, model_name)) as [reply|] eqn:Hc.
    + cbn [fst snd]. rewrite query_huggingface_run, Hc. now split.
    + cbn [fst snd]. rewrite query_huggingface_run. cbn [cache].
      rewrite lookup_insert_eq. now split.
  - intros clicks prompt. unfold calls_for.
    apply NoDup_fmap_filter_le.
    apply (memoised_run str_value network clicks initial memoised_initial).
Qed.

(** ** The quiz instruction (claim C5) *)

Lemma build_prompt_quiz (user_input : pystr) :
  build_prompt QUIZ_QUESTIONS user_input = quiz_template user_input.
Proof. reflexivity. Qed.

Lemma split_scan_line (a rest cur : pystr) :
  10%N ∉ a ->
  split_scan NL (a ++ NL ++ rest) 0 cur
  = (rev cur ++ a) :: split_scan NL rest 0 [].
Proof.
  revert cur. induction a as [|c a IH]; intros cur Ha.
  - cbn. now rewrite app_nil_r.
  - apply not_elem_of_cons in Ha as [Hc Ha].
    change ((c :: a) ++ NL ++ rest) with (c :: (a ++ NL ++ rest)).
    rewrite split_scan_step.
    + rewrite (IH _ Ha). cbn. now rewrite <- app_assoc.
    + change (startswith (c :: a ++ NL ++ rest) NL) with ((10 =? c)%N && true).
      rewrite andb_true_r. apply N.eqb_neq. congruence.
Qed.

Lemma quiz_request_one_line (user_input : pystr) :
  10%N ∉ user_input -> 10%N ∉ quiz_request user_input.
Proof.
  intros Hu H. unfold quiz_request in H.
  apply elem_of_app in H as [H|H]; [|apply elem_of_app in H as [H|H]].
  - vm_compute in H. repeat (apply elem_of_cons in H as [H|H]; [discriminate H|]).
    now apply elem_of_nil in H.
  - contradiction.
  - vm_compute in H. repeat (apply elem_of_cons in H as [H|H]; [discriminate H|]).
    now apply elem_of_nil in H.
Qed.

(** The lines of the quiz instruction for an input that fits on one line. *)
Lemma quiz_lines (user_input : pystr) :
  10%N ∉ user_input ->
  lines (quiz_template user_input)
  = quiz_request user_input :: List.tl (lines (quiz_template [])).
Proof.
  intros Hu. unfold lines.
  assert (Hcut : forall u, quiz_template u
                 = quiz_request u ++ NL
                     ++ drop (S (length (quiz_request []))) (quiz_template [])).
  { intros u. unfold quiz_template, quiz_request.
    rewrite <- !app_assoc. reflexivity. }
  rewrite (Hcut user_input), (Hcut []).
  rewrite !split_scan_line;
    [reflexivity|now apply quiz_request_one_line; intros H; apply elem_of_nil in H
    |now apply quiz_request_one_line].
Qed.

(** C5, as the code has it: for every input the quiz instruction is the
    sentence asking for 3 multiple-choice questions with 4 options each and 2
    true/false questions on the topic, followed by a layout that is the same
    for all inputs and shows one multiple-choice block (options a to d and
    one "Correct Answer:" line) and one true/false block (one "Answer:"
    line); for an input without a line break these are the only blocks of
    the whole instruction. *)
Theorem C5_quiz_layout_shows_one_block_each :
  exists layout,
    (forall user_input,
       build_prompt QUIZ_QUESTIONS user_input = quiz_request user_input ++ layout)
    /\ shows_blocks 1 1 layout
    /\ (forall user_input,
          10%N ∉ user_input ->
          shows_blocks 1 1 (build_prompt QUIZ_QUESTIONS user_input)).
Proof.
  exists (drop (length (quiz_request [])) (quiz_template [])).
  split; [|split].
  - intros user_input. rewrite build_prompt_quiz.
    unfold quiz_template, quiz_request. rewrite <- !app_assoc. reflexivity.
  - unfold shows_blocks, count_lines. repeat split; vm_compute; reflexivity.
  - intros user_input Hu. rewrite build_prompt_quiz.
    unfold shows_blocks, count_lines. rewrite (quiz_lines _ Hu).
    unfold quiz_request. repeat split; vm_compute; reflexivity.
Qed.

Lemma C5_quiz_layout_shows_one_block_each_witness :
  shows_blocks 1 1 (build_prompt QUIZ_QUESTIONS (lit "Photosynthesis")).
Proof.
  destruct C5_quiz_layout_shows_one_block_each as (layout & _ & _ & H).
  apply H. vm_compute. intros Hin.
  repeat (apply elem_of_cons in Hin as [Hin|Hin]; [discriminate Hin|]).
  now apply elem_of_nil in Hin.
Defined.

(** C5 as stated fails: the instruction for the topic ["x"] does not show
    three multiple-choice blocks and two true/false blocks. *)
Lemma C5_counterexample :
  ~ shows_blocks 3 2 (build_prompt QUIZ_QUESTIONS (lit "x"))
  /\ count_lines (lit "Correct Answer:") (build_prompt QUIZ_QUESTIONS (lit "x")) = 1%nat
  /\ count_lines (lit "Answer:") (build_prompt QUIZ_QUESTIONS (lit "x")) = 1%nat.
Proof.
  split; [|split; reflexivity].
  intros (H & _). vm_compute in H. discriminate H.
Qed.

(** * Further properties of the code *)

(** ** Splitting, joining and replacing *)

Lemma split_scan_nonempty (sep s : pystr) (skip : nat) (cur : pystr) :
  split_scan sep s skip cur <> [].
Proof.
  revert skip cur. induction s as [|c s IH]; intros skip cur; [discriminate|].
  cbn [split_scan]. destruct skip; [|apply IH].
  destruct (startswith (c :: s) sep); [discriminate|apply IH].
Qed.

Lemma join_cons (sep p : pystr) (ps : list pystr) :
  ps <> [] -> join sep (p :: ps) = p ++ sep ++ join sep ps.
Proof. destruct ps; [congruence|reflexivity]. Qed.

Lemma join_split_scan (sep s cur : pystr) :
  sep <> [] -> join sep (split_scan sep s 0 cur) = rev cur ++ s.
Proof.
  intros Hsep. remember (length s) as n eqn:Hn. revert s cur Hn.
  induction n as [n IH] using lt_wf_ind. intros s cur Hn.
  destruct (startswith s sep) eqn:Hs.
  - apply startswith_true in Hs as [s1 ->].
    rewrite split_scan_match by exact Hsep.
    rewrite join_cons by apply split_scan_nonempty.
    rewrite (IH (length s1)); [reflexivity| |reflexivity].
    subst n. rewrite length_app. destruct sep; [congruence|cbn; lia].
  - destruct s as [|c s]; [cbn; now rewrite app_nil_r|].
    rewrite split_scan_step by exact Hs.
    rewrite (IH (length s)); [|subst n; cbn; lia|reflexivity].
    cbn. now rewrite <- app_assoc.
Qed.

(** X1: the pieces of [s.split(sep)], joined again by [sep], give back [s]:
    a split loses no character, and replacing a string by itself changes
    nothing. *)
Theorem X1_split_then_join_is_identity (sep s : pystr) :
  sep <> [] ->
  join sep (split_scan sep s 0 []) = s /\ replace sep sep s = s.
Proof.
  intros Hsep. unfold replace. now rewrite join_split_scan.
Qed.

Lemma X1_split_then_join_is_identity_witness :
  join MARKER (split_scan MARKER sample_text 0 []) = sample_text
  /\ replace MARKER MARKER sample_text = sample_text.
Proof.
  apply X1_split_then_join_is_identity. discriminate.
Defined.

Lemma no_char_no_contains (c : N) (t s : pystr) :
  c ∉ s -> str_contains (c :: t) s = false.
Proof.
  induction s as [|d s IH]; intros Hc; [reflexivity|].
  apply not_elem_of_cons in Hc as [Hd Hs].
  cbn [str_contains startswith]. rewrite (IH Hs).
  apply N.eqb_neq in Hd. now rewrite Hd.
Qed.

Lemma replace_absent (old new s : pystr) :
  str_contains old s = false -> replace old new s = s.
Proof. intros H. unfold replace. now rewrite (split_scan_absent _ _ _ H). Qed.

Lemma replace_head (old s : pystr) :
  old <> [] -> str_contains old s = false -> replace old [] (old ++ s) = s.
Proof.
  intros Hold H. unfold replace.
  rewrite split_scan_match by exact Hold.
  now rewrite (split_scan_absent _ _ _ H).
Qed.

Lemma no_pictogram (name : pystr) (p : N) :
  Forall (fun c => c ∉ pictograms) name -> p ∈ pictograms -> p ∉ name.
Proof.
  intros Hn Hp Hin. rewrite Forall_forall in Hn. exact (Hn p Hin Hp).
Qed.

(** X2: the chain of [replace] calls that names the feature in the result
    header takes the pictogram and the blank after it off the front of a
    label, and leaves a text without pictograms as it is. *)
Theorem X2_feature_name_drops_the_pictogram (name : pystr) :
  Forall (fun c => c ∉ pictograms) name ->
  feature_name name = name
  /\ forall p, p ∈ pictograms -> feature_name (p :: 32%N :: name) = name.
Proof.
  intros Hn.
  assert (Habs : forall p, p ∈ pictograms ->
                   str_contains (p :: lit " ") name = false).
  { intros p Hp. apply no_char_no_contains. now apply no_pictogram. }
  assert (Hname : feature_name name = name).
  { unfold feature_name.
    rewrite (replace_absent (128218%N :: lit " "))
      by (apply Habs; unfold pictograms; set_solver).
    rewrite (replace_absent (128161%N :: lit " "))
      by (apply Habs; unfold pictograms; set_solver).
    rewrite (replace_absent (128221%N :: lit " "))
      by (apply Habs; unfold pictograms; set_solver).
    apply replace_absent, Habs. unfold pictograms. set_solver. }
  split; [exact Hname|]. intros p Hp.
  assert (Hother : forall q, q <> p ->
                     str_contains (q :: lit " ") (p :: 32%N :: name) = false
                     \/ q ∉ pictograms).
  { intros q Hqp. destruct (decide (q ∈ pictograms)) as [Hq|Hq]; [left|now right].
    apply no_char_no_contains.
    apply not_elem_of_cons. split; [exact Hqp|].
    apply not_elem_of_cons. split; [|now apply no_pictogram].
    intros ->. vm_compute in Hq.
    repeat (apply elem_of_cons in Hq as [Hq|Hq]; [discriminate Hq|]).
    now apply elem_of_nil in Hq. }
  assert (Hhead : feature_name ((p :: lit " ") ++ name)
                  = feature_name (p :: 32%N :: name)) by reflexivity.
  assert (Hdrop : replace (p :: lit " ") [] (p :: 32%N :: name) = name).
  { change (p :: 32%N :: name) with ((p :: lit " ") ++ name).
    apply replace_head; [discriminate|now apply Habs]. }
  assert (Hkeep : forall q, q ∈ pictograms -> q <> p ->
            replace (q :: lit " ") [] (p :: 32%N :: name) = p :: 32%N :: name).
  { intros q Hq Hqp. apply replace_absent.
    destruct (Hother q Hqp) as [H|H]; [exact H|contradiction]. }
  assert (Hin : forall q, q ∈ pictograms ->
            replace (q :: lit " ") [] name = name).
  { intros q Hq. apply replace_absent. now apply Habs. }
  unfold feature_name, pictograms in *.
  repeat (apply elem_of_cons in Hp as [->|Hp]);
    [| | | |now apply elem_of_nil in Hp].
  - rewrite Hdrop. rewrite !Hin by set_solver. reflexivity.
  - rewrite (Hkeep 128218%N) by first [discriminate|set_solver].
    rewrite Hdrop. rewrite !Hin by set_solver. reflexivity.
  - rewrite (Hkeep 128218%N) by first [discriminate|set_solver].
    rewrite (Hkeep 128161%N) by first [discriminate|set_solver].
    rewrite Hdrop. rewrite !Hin by set_solver. reflexivity.
  - rewrite (Hkeep 128218%N) by first [discriminate|set_solver].
    rewrite (Hkeep 128161%N) by first [discriminate|set_solver].
    rewrite (Hkeep 128221%N) by first [discriminate|set_solver].
    rewrite Hdrop. reflexivity.
Qed.

Lemma X2_feature_name_drops_the_pictogram_witness :
  feature_name (lit "Generate Quiz Questions") = lit "Generate Quiz Questions"
  /\ feature_name QUIZ_QUESTIONS = lit "Generate Quiz Questions".
Proof.
  destruct (X2_feature_name_drops_the_pictogram (lit "Generate Quiz Questions"))
    as [Hname Hlabel].
  - apply (bool_decide_unpack _). vm_compute. exact I.
  - split; [exact Hname|].
    apply (Hlabel 129504%N). apply (bool_decide_unpack _). vm_compute. exact I.
Defined.

(** ** Prompts *)

Lemma build_prompt_summarize (user_input : pystr) :
  build_prompt SUMMARIZE user_input
  = lit "Summarize the following text concisely and accurately, highlighting the main points:"
      ++ NL ++ NL ++ user_input.
Proof. reflexivity. Qed.

Lemma build_prompt_explain (user_input : pystr) :
  build_prompt EXPLAIN user_input
  = lit "Explain the following concept in simple, easy-to-understand terms for a student:"
      ++ NL ++ NL ++ lit "Concept: " ++ user_input.
Proof. reflexivity. Qed.

Lemma build_prompt_model_questions (user_input : pystr) :
  build_prompt MODEL_QUESTIONS user_input
  = lit "Generate 5 detailed model exam/essay questions for the topic '" ++ user_input
      ++ lit "'. Ensure the questions are open-ended and require analytical answers. Format them as a numbered list.".
Proof. reflexivity. Qed.

Lemma features_cases (option : pystr) :
  option ∈ features ->
  option = SUMMARIZE \/ option = EXPLAIN \/ option = MODEL_QUESTIONS
  \/ option = QUIZ_QUESTIONS.
Proof.
  unfold features. intros H.
  repeat (apply elem_of_cons in H as [H|H]; [tauto|]).
  now apply elem_of_nil in H.
Qed.

Lemma build_prompt_inj_input (option a b : pystr) :
  option ∈ features ->
  build_prompt option a = build_prompt option b -> a = b.
Proof.
  intros Ho H. apply features_cases in Ho as [Ho | [Ho | [Ho | Ho]]]; subst option.
  - rewrite !build_prompt_summarize in H. now do 3 apply app_inv_head in H.
  - rewrite !build_prompt_explain in H. now do 4 apply app_inv_head in H.
  - rewrite !build_prompt_model_questions in H.
    apply app_inv_head in H. now apply app_inv_tail in H.
  - rewrite !build_prompt_quiz in H. unfold quiz_template in H.
    apply app_inv_head in H. now apply app_inv_tail in H.
Qed.

Lemma build_prompt_inj_feature (o1 o2 a b : pystr) :
  o1 ∈ features -> o2 ∈ features ->
  build_prompt o1 a = build_prompt o2 b -> o1 = o2.
Proof.
  intros H1 H2 H.
  apply features_cases in H1 as [H1 | [H1 | [H1 | H1]]];
    apply features_cases in H2 as [H2 | [H2 | [H2 | H2]]];
    subst o1 o2; try reflexivity; exfalso;
    rewrite ?build_prompt_summarize, ?build_prompt_explain,
      ?build_prompt_model_questions, ?build_prompt_quiz in H;
    unfold quiz_template in H;
    apply (f_equal (take 1)) in H; vm_compute in H; discriminate H.
Qed.

(** X3: over the four features of the select box, the prompt determines both
    the feature and the input: two clicks that differ in either never share
    a prompt, hence never a cache entry or a request text. *)
Theorem X3_prompt_determines_feature_and_input (o1 o2 a b : pystr) :
  o1 ∈ features -> o2 ∈ features ->
  request_payload (build_prompt o1 a) = request_payload (build_prompt o2 b) ->
  o1 = o2 /\ a = b.
Proof.
  intros H1 H2 H. apply (f_equal inputs) in H. cbn [inputs request_payload] in H.
  apply wrap_inj in H.
  pose proof (build_prompt_inj_feature _ _ _ _ H1 H2 H) as Ho. subst o2.
  split; [reflexivity|]. exact (build_prompt_inj_input _ _ _ H1 H).
Qed.

Lemma features_quiz : QUIZ_QUESTIONS ∈ features.
Proof. unfold features. set_solver. Qed.

Lemma X3_prompt_determines_feature_and_input_witness :
  QUIZ_QUESTIONS = QUIZ_QUESTIONS /\ lit "X" = lit "X".
Proof.
  apply (X3_prompt_determines_feature_and_input
           QUIZ_QUESTIONS QUIZ_QUESTIONS (lit "X") (lit "X")
           features_quiz features_quiz).
  reflexivity.
Defined.

(** X4: the prompt of each of the four features carries the input verbatim,
    and a label that is none of the four leaves the prompt empty. *)
Theorem X4_prompt_embeds_the_input (option user_input : pystr) :
  (option ∈ features -> occurs user_input (build_prompt option user_input))
  /\ (option ∉ features -> build_prompt option user_input = []).
Proof.
  split.
  - intros Ho. apply features_cases in Ho as [Ho | [Ho | [Ho | Ho]]]; subst option.
    + rewrite build_prompt_summarize. eexists _, []. rewrite app_nil_r.
      rewrite !app_assoc. reflexivity.
    + rewrite build_prompt_explain. eexists _, []. rewrite app_nil_r.
      rewrite !app_assoc. reflexivity.
    + rewrite build_prompt_model_questions. eexists _, _. reflexivity.
    + rewrite build_prompt_quiz. unfold quiz_template. eexists _, _. reflexivity.
  - intros Ho. unfold build_prompt, str_eqb, features in *.
    repeat (rewrite bool_decide_false; [|intros ->; apply Ho; set_solver]).
    reflexivity.
Qed.

Lemma X4_prompt_embeds_the_input_witness :
  occurs (lit "X") (build_prompt QUIZ_QUESTIONS (lit "X"))
  /\ build_prompt (lit "Other") (lit "X") = [].
Proof.
  split.
  - apply (proj1 (X4_prompt_embeds_the_input QUIZ_QUESTIONS (lit "X"))).
    exact features_quiz.
  - apply (proj2 (X4_prompt_embeds_the_input (lit "Other") (lit "X"))).
    apply (bool_decide_unpack _). vm_compute. exact I.
Defined.

(** ** Replies *)

Lemma wrap_ends_with_marker (prompt : pystr) :
  wrap prompt = (lit "<s>[INST] " ++ prompt ++ lit " ") ++ MARKER.
Proof. unfold wrap. rewrite <- !app_assoc. reflexivity. Qed.

(** X5: when the model echoes the request text and appends a continuation
    that holds no marker, the reply is the continuation, trimmed, whatever
    the prompt is: markers typed by the user in the prompt do not disturb
    the extraction. *)
Theorem X5_echoed_request_is_cut_off (str_value : value -> pystr)
    (network : nat -> Payload -> outcome Response)
    (prompt model_name continuation : pystr) (st : State) (v : value) :
  delivers network st prompt v ->
  answers v (inputs (request_payload prompt) ++ continuation) ->
  ~ occurs MARKER continuation ->
  query_huggingface_body str_value network prompt model_name st
  = (Return (strip continuation), posted st (request_payload prompt)).
Proof.
  intros Hd Hv Hc. cbn [inputs request_payload] in Hv.
  rewrite wrap_ends_with_marker, <- app_assoc in Hv.
  apply str_contains_false in Hc.
  rewrite (body_delivered _ _ _ _ _ _ Hd).
  now rewrite (parse_result_marker str_value v _ _ Hv Hc).
Qed.

Lemma X5_echoed_request_is_cut_off_witness :
  query_huggingface_body no_str (sample_network marked_echo) marked_prompt
    default_model_name initial
  = (Return (strip (lit " A tag. ")),
     posted initial (request_payload marked_prompt)).
Proof.
  apply (X5_echoed_request_is_cut_off no_str (sample_network marked_echo)
           marked_prompt default_model_name (lit " A tag. ") initial marked_echo).
  - eexists. split; [reflexivity|]. split; [simpl; lia|reflexivity].
  - eexists _, _. split; [reflexivity|]. apply lookup_singleton_eq.
  - apply str_contains_false. reflexivity.
Defined.

(** X6: outside 400..599 the status of a response is not looked at: the same
    body under another such status gets the same reply (a 302 or a 100 is
    read like a 200). *)
Theorem X6_status_outside_4xx_5xx_is_ignored (str_value : value -> pystr)
    (network network' : nat -> Payload -> outcome Response)
    (prompt model_name : pystr) (st : State) (r : Response) (status' : Z) :
  network (length (sent st)) (request_payload prompt) = Return r ->
  network' (length (sent st)) (request_payload prompt)
  = Return (mkResponse status' (text r) (body_json r)) ->
  ~ 400 <= status_code r < 600 ->
  ~ 400 <= status' < 600 ->
  query_huggingface_body str_value network prompt model_name st
  = query_huggingface_body str_value network' prompt model_name st.
Proof.
  intros Hn Hn' Hs Hs'. rewrite !body_expected, Hn, Hn'.
  cbn [expected_reply status_code]. unfold is_http_error, json.
  cbn [body_json].
  replace ((400 <=? status_code r) && (status_code r <? 600)) with false
    by (symmetry; apply andb_false_iff;
        rewrite Z.leb_gt, Z.ltb_ge; lia).
  replace ((400 <=? status') && (status' <? 600)) with false
    by (symmetry; apply andb_false_iff;
        rewrite Z.leb_gt, Z.ltb_ge; lia).
  reflexivity.
Qed.

Lemma X6_status_outside_4xx_5xx_is_ignored_witness :
  query_huggingface_body no_str (sample_network sample_body) (lit "X")
    default_model_name initial
  = query_huggingface_body no_str redirecting (lit "X")
      default_model_name initial.
Proof.
  apply (X6_status_outside_4xx_5xx_is_ignored no_str
           (sample_network sample_body) redirecting (lit "X")
           default_model_name initial
           (mkResponse 200 [] (Decoded sample_body)) 302);
    try reflexivity; simpl; lia.
Defined.

(** Every decoded body is well-shaped, or fails the shape test, or makes one
    of the look-ups raise. *)
Lemma parse_result_classification (str_value : value -> pystr) (v : value) :
  (exists g, answers v g)
  \/ unexpected_format v
  \/ exists d, parse_result str_value v = Raise (TypeError d)
               \/ parse_result str_value v = Raise (AttributeError d).
Proof.
  destruct v as [| | | | |items|];
    try (right; left; now apply format_not_a_list).
  destruct items as [|first rest]; [right; left; apply format_empty_list|].
  remember (parse_result str_value (VList (first :: rest))) as P eqn:HP.
  rewrite parse_result_cons in HP.
  destruct first as [| | | |s|inner|fields]; cbn in HP;
    try (right; right; eexists; left; exact HP).
  - destruct (str_contains FIELD s) eqn:Hs; cbn in HP.
    + right; right; eexists; left; exact HP.
    + right; left. apply format_string_without_name.
      now apply str_contains_false.
  - destruct (existsb (is_str FIELD) inner) eqn:He; cbn in HP.
    + right; right; eexists; left; exact HP.
    + right; left. apply format_list_without_name.
      intros Hin. apply existsb_is_str in Hin. congruence.
  - destruct (fields !! FIELD) as [x|] eqn:Hf; cbn in HP;
      [|right; left; now apply format_record_without_field].
    destruct x as [| | | |g|inner|inner]; cbn in HP;
      try (right; right; eexists; left; exact HP).
    + left. now exists g, fields, rest.
    + destruct (existsb (is_str MARKER) inner); cbn in HP;
        right; right; eexists; right; exact HP.
    + destruct (bool_decide (is_Some (inner !! MARKER))); cbn in HP;
        right; right; eexists; right; exact HP.
Qed.

(** X7: a body that is not a list, or is an empty list, or whose first
    element is a record without the field, a string without the name of the
    field or a list without it, gets exactly the "Unexpected API response
    format" message, with the body printed after it. *)
Theorem X7_failed_shape_test_prints_the_body (str_value : value -> pystr)
    (network : nat -> Payload -> outcome Response)
    (prompt model_name : pystr) (st : State) (v : value) :
  delivers network st prompt v ->
  unexpected_format v ->
  query_huggingface_body str_value network prompt model_name st
  = (Return (CROSS ++ lit " Error: Unexpected API response format: "
               ++ str_value v),
     posted st (request_payload prompt)).
Proof.
  intros Hd Hv. rewrite (body_delivered _ _ _ _ _ _ Hd).
  now rewrite (parse_result_unexpected_format str_value v Hv).
Qed.

Lemma X7_failed_shape_test_prints_the_body_witness :
  query_huggingface_body no_str (sample_network (VList [])) (lit "X")
    default_model_name initial
  = (Return (CROSS ++ lit " Error: Unexpected API response format: "
               ++ no_str (VList [])),
     posted initial (request_payload (lit "X"))).
Proof.
  apply X7_failed_shape_test_prints_the_body.
  - eexists. split; [reflexivity|]. split; [simpl; lia|reflexivity].
  - apply format_empty_list.
Defined.

(** X8: a body that neither is well-shaped nor fails the shape test makes a
    look-up raise a [TypeError] or an [AttributeError]; the reply is the
    generic message followed by the text of that exception. *)
Theorem X8_raising_lookup_gives_the_generic_message (str_value : value -> pystr)
    (network : nat -> Payload -> outcome Response)
    (prompt model_name : pystr) (st : State) (v : value) :
  delivers network st prompt v ->
  (~ exists g, answers v g) ->
  ~ unexpected_format v ->
  exists detail,
    (parse_result str_value v = Raise (TypeError detail)
     \/ parse_result str_value v = Raise (AttributeError detail))
    /\ query_huggingface_body str_value network prompt model_name st
       = (Return (CROSS ++ lit " An unexpected error occurred during API call: "
                    ++ detail),
          posted st (request_payload prompt)).
Proof.
  intros Hd Hna Hnf.
  destruct (parse_result_classification str_value v)
    as [Ha|[Hf|(d & Hr)]]; [contradiction|contradiction|].
  exists d. split; [exact Hr|].
  rewrite (body_delivered _ _ _ _ _ _ Hd).
  destruct Hr as [-> | ->]; reflexivity.
Qed.

Lemma X8_raising_lookup_gives_the_generic_message_witness :
  exists detail,
    (parse_result no_str number_in_list = Raise (TypeError detail)
     \/ parse_result no_str number_in_list = Raise (AttributeError detail))
    /\ query_huggingface_body no_str (sample_network number_in_list) (lit "X")
         default_model_name initial
       = (Return (CROSS ++ lit " An unexpected error occurred during API call: "
                    ++ detail),
          posted initial (request_payload (lit "X"))).
Proof.
  apply X8_raising_lookup_gives_the_generic_message.
  - eexists. split; [reflexivity|]. split; [simpl; lia|reflexivity].
  - intros (g & fields & rest & Hv & _). discriminate Hv.
  - intros H. inversion H as [v Hv| | | |]. discriminate Hv.
Defined.

Lemma strip_cons_nonspace (c : N) (t : pystr) :
  isspace c = false -> exists rest, strip (c :: t) = c :: rest.
Proof.
  intros Hc. destruct (strip_trimmed (c :: t)) as [(l & r & Hs & Hl & Hr) _].
  destruct l as [|d l].
  - destruct (strip (c :: t)) as [|x rest]; cbn in Hs.
    + subst r. inversion Hr; congruence.
    + injection Hs as -> _. now exists rest.
  - cbn in Hs. injection Hs as -> _. inversion Hl; congruence.
Qed.

(** X9: the cross mark does not tell an error from an answer: when the text
    the model wrote after the marker begins with the cross mark, the reply is
    that text, trimmed, and opens with the cross mark like an error
    message. *)
Theorem X9_an_answer_can_carry_the_cross_mark (str_value : value -> pystr)
    (network : nat -> Payload -> outcome Response)
    (prompt model_name : pystr) (st : State) (v : value) (pre t : pystr) :
  delivers network st prompt v ->
  answers v (pre ++ MARKER ++ CROSS ++ t) ->
  ~ occurs MARKER t ->
  query_huggingface_body str_value network prompt model_name st
  = (Return (strip (CROSS ++ t)), posted st (request_payload prompt))
  /\ flagged (strip (CROSS ++ t)).
Proof.
  intros Hd Hv Ht.
  assert (Hc : str_contains MARKER (CROSS ++ t) = false).
  { apply str_contains_false in Ht.
    change (str_contains MARKER (CROSS ++ t))
      with (startswith (10060%N :: t) MARKER || str_contains MARKER t).
    rewrite Ht. reflexivity. }
  split.
  - rewrite (body_delivered _ _ _ _ _ _ Hd).
    now rewrite (parse_result_marker str_value v _ _ Hv Hc).
  - destruct (strip_cons_nonspace 10060%N t) as [rest Hrest]; [reflexivity|].
    exists rest. exact Hrest.
Qed.

Lemma X9_an_answer_can_carry_the_cross_mark_witness :
  query_huggingface_body no_str (sample_network crossed_body) (lit "X")
    default_model_name initial
  = (Return (strip (CROSS ++ lit " no")),
     posted initial (request_payload (lit "X")))
  /\ flagged (strip (CROSS ++ lit " no")).
Proof.
  apply (X9_an_answer_can_carry_the_cross_mark no_str
           (sample_network crossed_body) (lit "X") default_model_name initial
           crossed_body (lit "<s>[INST] X ") (lit " no")).
  - eexists. split; [reflexivity|]. split; [simpl; lia|reflexivity].
  - eexists _, _. split; [reflexivity|]. apply lookup_singleton_eq.
  - apply str_contains_false. reflexivity.
Defined.

(** ** Clicks, the cache and the page *)

Lemma on_click_run (str_value : value -> pystr)
    (network : nat -> Payload -> outcome Response)
    (option user_input : pystr) (st : State) :
  on_click str_value network option user_input st =
    if str_eqb (strip user_input) [] then (Return tt, warned st)
    else
      let prompt := build_prompt option user_input in
      match cache st !! (prompt, default_model_name) with
      | Some reply => (Return tt, answered st option reply)
      | None =>
          let reply := expected_reply str_value default_model_name
                         (network (length (sent st)) (request_payload prompt)) in
          (Return tt,
           answered (mkState (<[(prompt, default_model_name) := reply]> (cache st))
                       (sent st ++ [request_payload prompt]) (screen st))
             option reply)
      end.
Proof.
  unfold on_click. destruct (str_eqb (strip user_input) []); [reflexivity|].
  unfold mbind, M_bind. rewrite query_huggingface_run. cbn zeta.
  destruct (cache st !! (build_prompt option user_input, default_model_name));
    unfold st_subheader, st_write, show, answered, result_header; cbn;
    now rewrite <- app_assoc.
Qed.

Lemma not_blank_strip (s : pystr) : ~ blank s -> str_eqb (strip s) [] = false.
Proof.
  intros H. unfold str_eqb. apply bool_decide_eq_false. intros Hs.
  apply H. now apply strip_nil_blank.
Qed.

(** X10: a click on a non-blank input never warns: it writes one header,
    naming the feature, and under it the reply that the cache now holds for
    the prompt; nothing else is added to the page. *)
Theorem X10_click_writes_the_cached_reply (str_value : value -> pystr)
    (network : nat -> Payload -> outcome Response)
    (option user_input : pystr) (st : State) :
  ~ blank user_input ->
  exists reply,
    let st' := snd (on_click str_value network option user_input st) in
    fst (on_click str_value network option user_input st) = Return tt
    /\ cache st' !! (build_prompt option user_input, default_model_name)
       = Some reply
    /\ screen st'
       = screen st
           ++ [Subheader (129534%N :: lit " Result: " ++ feature_name option);
               Write reply].
Proof.
  intros Hb. rewrite on_click_run, (not_blank_strip _ Hb). cbn zeta.
  destruct (cache st !! (build_prompt option user_input, default_model_name))
    as [reply|] eqn:Hc.
  - exists reply. cbn. now rewrite Hc.
  - eexists. cbn. rewrite lookup_insert_eq. repeat split.
Qed.

Lemma X10_click_writes_the_cached_reply_witness :
  exists reply,
    let st' := snd (on_click no_str (sample_network sample_body)
                      QUIZ_QUESTIONS (lit "X") initial) in
    fst (on_click no_str (sample_network sample_body)
           QUIZ_QUESTIONS (lit "X") initial) = Return tt
    /\ cache st' !! (build_prompt QUIZ_QUESTIONS (lit "X"), default_model_name)
       = Some reply
    /\ screen st'
       = screen initial
           ++ [Subheader (129534%N :: lit " Result: "
                            ++ feature_name QUIZ_QUESTIONS);
               Write reply].
Proof.
  apply X10_click_writes_the_cached_reply.
  intros H. inversion H as [|c l Hc _]. discriminate Hc.
Defined.

Lemma click_keeps_cache (str_value : value -> pystr)
    (network : nat -> Payload -> outcome Response)
    (option user_input : pystr) (st : State) (k : pystr * pystr) (v : pystr) :
  cache st !! k = Some v ->
  cache (snd (on_click str_value network option user_input st)) !! k = Some v.
Proof.
  intros Hk. rewrite on_click_run.
  destruct (str_eqb (strip user_input) []); [exact Hk|]. cbn zeta.
  destruct (cache st !! (build_prompt option user_input, default_model_name))
    as [reply|] eqn:Hc; [exact Hk|].
  cbn. rewrite lookup_insert_ne; [exact Hk|]. intros <-. congruence.
Qed.

Lemma click_extends_log (str_value : value -> pystr)
    (network : nat -> Payload -> outcome Response)
    (option user_input : pystr) (st : State) :
  exists more,
    sent (snd (on_click str_value network option user_input st))
    = sent st ++ more
    /\ (length more <= if str_eqb (strip user_input) [] then 0 else 1)%nat.
Proof.
  rewrite on_click_run.
  destruct (str_eqb (strip user_input) []);
    [exists []; cbn; now rewrite app_nil_r|]. cbn zeta.
  destruct (cache st !! (build_prompt option user_input, default_model_name));
    [exists []; cbn; split; [now rewrite app_nil_r|lia]|].
  eexists. cbn. split; [reflexivity|cbn; lia].
Qed.

Lemma run_keeps_cache (str_value : value -> pystr)
    (network : nat -> Payload -> outcome Response)
    (clicks : list (pystr * pystr)) (st : State) (k : pystr * pystr) (v : pystr) :
  cache st !! k = Some v ->
  cache (run str_value network clicks st) !! k = Some v.
Proof.
  revert st. induction clicks as [|[option user_input] later IH]; intros st Hk;
    [exact Hk|].
  cbn. apply IH. now apply click_keeps_cache.
Qed.

Lemma run_extends_log (str_value : value -> pystr)
    (network : nat -> Payload -> outcome Response)
    (clicks : list (pystr * pystr)) (st : State) :
  exists more,
    sent (run str_value network clicks st) = sent st ++ more
    /\ (length more <= length (effective clicks))%nat.
Proof.
  revert st. induction clicks as [|[option user_input] later IH]; intros st.
  - exists []. cbn. split; [now rewrite app_nil_r|lia].
  - cbn [run].
    destruct (click_extends_log str_value network option user_input st)
      as (m1 & H1 & L1).
    destruct (IH (snd (on_click str_value network option user_input st)))
      as (m2 & H2 & L2).
    exists (m1 ++ m2). rewrite H2, H1, <- app_assoc. split; [reflexivity|].
    rewrite length_app. unfold effective in *. cbn [List.filter snd].
    destruct (str_eqb (strip user_input) []); cbn in *; lia.
Qed.

(** X11: nothing is forgotten in the life of the process: an entry of the
    cache keeps its reply through any succession of clicks (no eviction, no
    overwriting), and the requests already made stay at the head of the
    log. *)
Theorem X11_cache_and_log_only_grow (str_value : value -> pystr)
    (network : nat -> Payload -> outcome Response)
    (clicks : list (pystr * pystr)) (st : State) :
  (forall k v, cache st !! k = Some v ->
               cache (run str_value network clicks st) !! k = Some v)
  /\ sent st `prefix_of` sent (run str_value network clicks st).
Proof.
  split.
  - intros k v. apply run_keeps_cache.
  - destruct (run_extends_log str_value network clicks st) as (more & H & _).
    now exists more.
Qed.

(** X12: a run makes at most one request per click that carries a non-blank
    input, and none for the others. *)
Theorem X12_at_most_one_request_per_click (str_value : value -> pystr)
    (network : nat -> Payload -> outcome Response)
    (clicks : list (pystr * pystr)) (st : State) :
  (length (sent (run str_value network clicks st))
   <= length (sent st) + length (effective clicks))%nat
  /\ (length (effective clicks) <= length clicks)%nat.
Proof.
  split.
  - destruct (run_extends_log str_value network clicks st) as (more & H & L).
    rewrite H, length_app. lia.
  - unfold effective. apply filter_length_le.
Qed.

Lemma X11_cache_and_log_only_grow_witness :
  cache (run no_str missing_model [(QUIZ_QUESTIONS, lit "Y")]
           (snd (on_click no_str (sample_network sample_body)
                   QUIZ_QUESTIONS (lit "X") initial)))
    !! (build_prompt QUIZ_QUESTIONS (lit "X"), default_model_name)
  = Some (lit "answer").
Proof.
  apply (proj1 (X11_cache_and_log_only_grow no_str missing_model
                  [(QUIZ_QUESTIONS, lit "Y")]
                  (snd (on_click no_str (sample_network sample_body)
                          QUIZ_QUESTIONS (lit "X") initial)))).
  vm_compute. reflexivity.
Defined.

(** X13: a failure is remembered like an answer.  When the request of a click
    raises, the message of that failure is stored; after any further clicks,
    and whatever the endpoint would answer by then, the same click shows the
    same message again and sends nothing. *)
Theorem X13_failure_is_remembered (str_value : value -> pystr)
    (network network' : nat -> Payload -> outcome Response)
    (option user_input : pystr) (later : list (pystr * pystr))
    (st : State) (e : exn) :
  ~ blank user_input ->
  cache st !! (build_prompt option user_input, default_model_name) = None ->
  network (length (sent st)) (request_payload (build_prompt option user_input))
  = Raise e ->
  let st1 := snd (on_click str_value network option user_input st) in
  let st2 := run str_value network' later st1 in
  flagged (render default_model_name (classify e))
  /\ on_click str_value network' option user_input st2
     = (Return tt,
        mkState (cache st2) (sent st2)
          (screen st2
             ++ [Subheader (129534%N :: lit " Result: " ++ feature_name option);
                 Write (render default_model_name (classify e))])).
Proof.
  intros Hb Hmiss Hnet. cbn zeta. split; [apply render_flagged|].
  assert (Hstored :
    cache (snd (on_click str_value network option user_input st))
      !! (build_prompt option user_input, default_model_name)
    = Some (render default_model_name (classify e))).
  { rewrite on_click_run, (not_blank_strip _ Hb). cbn zeta.
    rewrite Hmiss, Hnet. cbn. now rewrite lookup_insert_eq. }
  apply (run_keeps_cache str_value network' later) in Hstored.
  rewrite (on_click_run str_value network'), (not_blank_strip _ Hb). cbn zeta.
  rewrite Hstored. reflexivity.
Qed.

Lemma X13_failure_is_remembered_witness :
  let st1 := snd (on_click no_str unreachable QUIZ_QUESTIONS (lit "X") initial) in
  let st2 := run no_str (sample_network sample_body) [] st1 in
  flagged (render default_model_name (ConnectionFailure (lit "no route to host")))
  /\ on_click no_str (sample_network sample_body) QUIZ_QUESTIONS (lit "X") st2
     = (Return tt,
        mkState (cache st2) (sent st2)
          (screen st2
             ++ [Subheader (129534%N :: lit " Result: "
                              ++ feature_name QUIZ_QUESTIONS);
                 Write (render default_model_name
                          (ConnectionFailure (lit "no route to host")))])).
Proof.
  apply (X13_failure_is_remembered no_str unreachable
           (sample_network sample_body) QUIZ_QUESTIONS (lit "X") [] initial
           (ConnectionError (lit "no route to host"))).
  - intros H. inversion H as [|c l Hc _]. discriminate Hc.
  - reflexivity.
  - reflexivity.
Defined.

(** X14: [model_name] is part of the cache key but not of the request: the
    same prompt asked under two model names is posted twice, with the same
    payload. *)
Theorem X14_model_name_never_reaches_the_endpoint (str_value : value -> pystr)
    (network : nat -> Payload -> outcome Response)
    (prompt m1 m2 : pystr) (st : State) :
  m1 <> m2 ->
  cache st !! (prompt, m1) = None ->
  cache st !! (prompt, m2) = None ->
  let st1 := snd (query_huggingface str_value network prompt m1 st) in
  sent (snd (query_huggingface str_value network prompt m2 st1))
  = sent st ++ [request_payload prompt; request_payload prompt].
Proof.
  intros Hm H1 H2. cbn zeta.
  rewrite (query_huggingface_run _ _ _ m1 st), H1. cbn [snd].
  rewrite query_huggingface_run. cbn [cache sent].
  rewrite lookup_insert_ne by congruence. rewrite H2. cbn.
  now rewrite <- app_assoc.
Qed.

Lemma X14_model_name_never_reaches_the_endpoint_witness :
  let st1 := snd (query_huggingface no_str (sample_network sample_body)
                    (lit "X") (lit "a") initial) in
  sent (snd (query_huggingface no_str (sample_network sample_body)
               (lit "X") (lit "b") st1))
  = sent initial ++ [request_payload (lit "X"); request_payload (lit "X")].
Proof.
  apply X14_model_name_never_reaches_the_endpoint.
  - discriminate.
  - reflexivity.
  - reflexivity.
Defined.

(** ** Trimming *)

Lemma lstrip_blank_app (l s : pystr) : blank l -> lstrip (l ++ s) = lstrip s.
Proof.
  induction 1 as [|c l Hc _ IH]; [reflexivity|]. cbn. now rewrite Hc.
Qed.

Lemma lstrip_nonspace (c : N) (t : pystr) :
  isspace c = false -> lstrip (c :: t) = c :: t.
Proof. intros H. cbn. now rewrite H. Qed.

(** X15: [strip] returns the one text that is left when a blank prefix and a
    blank suffix are taken off and that neither starts nor ends with
    whitespace: the trimmed answer is determined by the generated text. *)
Theorem X15_strip_is_the_only_trimming (s t : pystr) :
  trimmed_of s t -> t = strip s.
Proof.
  intros [(l & r & -> & Hl & Hr) [Hfirst Hlast]].
  unfold strip, rstrip. rewrite (lstrip_blank_app l _ Hl).
  destruct t as [|c t'].
  - cbn [app]. now rewrite (lstrip_blank r Hr).
  - change ((c :: t') ++ r) with (c :: (t' ++ r)).
    rewrite (lstrip_nonspace c _ (Hfirst c t' eq_refl)).
    change (c :: t' ++ r) with ((c :: t') ++ r).
    rewrite rev_app_distr, (lstrip_blank_app _ _ (blank_rev r Hr)).
    destruct (rev (c :: t')) as [|d u] eqn:Hrev.
    + apply (f_equal (@rev N)) in Hrev. rewrite rev_involutive in Hrev.
      discriminate Hrev.
    + assert (Ht : c :: t' = rev u ++ [d]).
      { rewrite <- (rev_involutive (c :: t')), Hrev. reflexivity. }
      rewrite (lstrip_nonspace d u (Hlast d (rev u) Ht)).
      rewrite Ht. cbn. reflexivity.
Qed.

Lemma X15_strip_is_the_only_trimming_witness :
  lit "a b" = strip (lit "  a b " ++ NL).
Proof.
  apply X15_strip_is_the_only_trimming. split; [|split].
  - exists (lit "  "), (lit " " ++ NL). split; [reflexivity|].
    split; repeat constructor.
  - intros c t' H. injection H as <- _. reflexivity.
  - intros c t' H. apply (f_equal (@rev N)) in H.
    rewrite rev_app_distr in H. injection H as <- _. reflexivity.
Defined.

(** ** What the parser does not look at *)

(** X16: of a well-shaped body the parser reads the [generated_text] of the
    first record and nothing else: two bodies that agree on it get the same
    answer, whatever their other fields and their other elements. *)
Theorem X16_only_the_first_generated_text_counts (str_value : value -> pystr)
    (v v' : value) (g : pystr) :
  answers v g -> answers v' g ->
  exists answer,
    parse_result str_value v = Return answer
    /\ parse_result str_value v' = Return answer.
Proof.
  intros Hv Hv'. destruct (extracted_exists g) as (t & _ & Hp).
  exists t. split; now apply Hp.
Qed.

Lemma X16_only_the_first_generated_text_counts_witness :
  exists answer,
    parse_result no_str sample_body = Return answer
    /\ parse_result no_str
         (VList [VDict (<[lit "score" := VInt 1]> {[ FIELD := VStr sample_text ]});
                 VNone])
       = Return answer.
Proof.
  apply (X16_only_the_first_generated_text_counts no_str _ _ sample_text).
  - eexists _, _. split; [reflexivity|]. apply lookup_singleton_eq.
  - eexists _, _. split; [reflexivity|]. vm_compute. reflexivity.
Defined.
